(** * HeesSolo: the AI Music Cleaner service (ai_music_cleaner.py)

    A shallow embedding of the request pipeline of [ai_music_cleaner.py]:
    fetch the audio of a video, separate it into two stems, strip the silence
    of the requested stem and serve the result over HTTP.

    The program is glue around three external tools (the yt_dlp downloader,
    the spleeter separation model and the ffmpeg binary) and the file system.
    The tools are kept abstract, as fields of an environment record; the file
    system is a finite map from path strings to entries; the path arithmetic
    of [pathlib] and [os.path] that the program relies on is written out on
    strings (POSIX flavour, CPython 3.8 to 3.13).  Exceptions are a result
    type, and every function of the program is a computation in a small
    state-and-exception monad over the world (file system and call trace).

    What the model takes for granted:
    - requests are handled one at a time, with their three query parameters
      bound (the defaults of [file_name] and [file_type] already applied);
    - a tool raises subclasses of [Exception] only, and is a function of its
      arguments and of the file system;
    - the framework sends a [FileResponse] as starlette does: the bytes of a
      regular file, and a server error for anything else;
    - a string is a sequence of characters with the codes 0 to 255, read as
      the Python [str] of these code points; [repr] is exact on them;
    - an entry of the file system is found under the very string it was
      stored under, and permissions are not modelled; what else can make the
      operating system refuse to create a directory (a missing parent, a name
      too long, an embedded NUL) is the environment's to say. *)

From Stdlib Require Import ZArith Ascii String.
From stdpp Require Import base option list strings gmap.

Local Open Scope Z_scope.

(** ** Strings as Python uses them *)

Module pystr.

(** [s.startswith(String c "")] and [s.endswith(String c "")]. *)
Definition startswith_char (c : ascii) (s : string) : bool :=
  match s with
  | String a _ => Ascii.eqb a c
  | EmptyString => false
  end.

Fixpoint endswith_char (c : ascii) (s : string) : bool :=
  match s with
  | EmptyString => false
  | String a EmptyString => Ascii.eqb a c
  | String _ s' => endswith_char c s'
  end.

(** [c in s]. *)
Fixpoint contains_char (c : ascii) (s : string) : bool :=
  match s with
  | EmptyString => false
  | String a s' => Ascii.eqb a c || contains_char c s'
  end.

(** [s.split(c)]: the pieces between the occurrences of [c]; never empty. *)
Fixpoint split (c : ascii) (s : string) : list string :=
  match s with
  | EmptyString => [EmptyString]
  | String a s' =>
      if Ascii.eqb a c then EmptyString :: split c s'
      else match split c s' with
           | [] => [String a EmptyString]
           | h :: t => String a h :: t
           end
  end.

(** [s.rfind(c)]: the index of the last occurrence of [c], or [-1]. *)
Fixpoint rfind (c : ascii) (s : string) : Z :=
  match s with
  | EmptyString => -1
  | String a s' =>
      let i := rfind c s' in
      if 0 <=? i then i + 1
      else if Ascii.eqb a c then 0 else -1
  end.

(** [len(s)], as an integer. *)
Definition len (s : string) : Z := Z.of_nat (String.length s).

(** The slices [s[:i]] and [s[i:]] for [0 <= i]. *)
Definition slice_to (i : Z) (s : string) : string :=
  String.substring 0 (Z.to_nat i) s.
Definition slice_from (i : Z) (s : string) : string :=
  String.substring (Z.to_nat i) (String.length s - Z.to_nat i)%nat s.

(** [c.isprintable()] for a code point below 256: the controls, the
    no-break space (160) and the soft hyphen (173) are not. *)
Definition isprintable (c : ascii) : bool :=
  let n := N_of_ascii c in
  ((32 <=? n) && (n <? 127) || (161 <=? n) && negb (n =? 173))%N.

Definition hex_digit (n : N) : ascii :=
  match n with
  | 0 => "0" | 1 => "1" | 2 => "2" | 3 => "3" | 4 => "4" | 5 => "5"
  | 6 => "6" | 7 => "7" | 8 => "8" | 9 => "9" | 10 => "a" | 11 => "b"
  | 12 => "c" | 13 => "d" | 14 => "e" | _ => "f"
  end%N%char.

Definition squote : ascii := "'"%char.
Definition dquote : ascii := "034"%char.
Definition backslash : ascii := "\"%char.

(** One character inside [repr(s)]: the quote in use and the backslash are
    escaped, tab, newline and carriage return have their letter, any other
    unprintable character is written with two hexadecimal digits. *)
Definition escape (quote c : ascii) : string :=
  if Ascii.eqb c quote || Ascii.eqb c backslash then
    String backslash (String c "")
  else if Ascii.eqb c "009" then String backslash "t"
  else if Ascii.eqb c "010" then String backslash "n"
  else if Ascii.eqb c "013" then String backslash "r"
  else if isprintable c then String c ""
  else
    let n := N_of_ascii c in
    String backslash
      (String "x" (String (hex_digit (n / 16)) (String (hex_digit (n mod 16)) ""))).

Fixpoint escaped (quote : ascii) (s : string) : string :=
  match s with
  | EmptyString => ""
  | String c s' => escape quote c +:+ escaped quote s'
  end.

(** [repr(s)]: between single quotes, unless [s] holds a single quote and
    no double quote. *)
Definition repr (s : string) : string :=
  let quote :=
    if contains_char squote s && negb (contains_char dquote s) then dquote
    else squote in
  String quote (escaped quote s +:+ String quote "").

End pystr.

(** ** Exceptions and results *)

(** An exception raised by Python code outside the web framework: its class
    name and [str(e)]. *)
Record PyError := mkPyError { exc_class : string; exc_str : string }.

(** What the program can raise: fastapi's [HTTPException], or any other
    [Exception]. *)
Inductive exn :=
  | HTTPException (status_code : Z) (detail : string)
  | OtherException (e : PyError).

Inductive result (A : Type) :=
  | Return (a : A)
  | Raise (e : exn).
Arguments Return {A} a.
Arguments Raise {A} e.

Definition ValueError (msg : string) : exn :=
  OtherException (mkPyError "ValueError" msg).

(** ** pathlib.PurePosixPath *)

Module pathlib.
Import pystr.

Definition sep : ascii := "/"%char.

(** A parsed path: the root ([""], ["/"] or ["//"]) and the components
    after it.  There is no drive on POSIX. *)
Record PurePath := mkPath { root : string; tail : list string }.

(** [posixpath.splitroot]: one leading slash, or exactly two, is the root;
    three or more collapse to one. *)
Definition splitroot (p : string) : string * string :=
  match p with
  | String a r1 =>
      if Ascii.eqb a sep then
        match r1 with
        | String b r2 =>
            if Ascii.eqb b sep then
              if startswith_char sep r2 then ("/", r1) else ("//", r2)
            else ("/", r1)
        | EmptyString => ("/", r1)
        end
      else ("", p)
  | EmptyString => ("", p)
  end.

(** A component is kept unless it is empty or a single dot. *)
Definition keep_part (x : string) : bool :=
  negb (String.eqb x "") && negb (String.eqb x ".").

(** [PurePosixPath(s)]. *)
Definition Path (s : string) : PurePath :=
  let '(r, rel) := splitroot s in
  {| root := r; tail := List.filter keep_part (split sep rel) |}.

(** [str(p)]. *)
Definition str (p : PurePath) : string :=
  match root p, tail p with
  | EmptyString, [] => "."
  | r, t => r +:+ String.concat "/" t
  end.

(** [repr(p)], for the concrete class [PosixPath]. *)
Definition repr (p : PurePath) : string :=
  "PosixPath(" +:+ pystr.repr (str p) +:+ ")".

(** [p.name]: the last component, or the empty string. *)
Definition name (p : PurePath) : string := default "" (last (tail p)).


Definition has_suffix (nm : string) : bool :=
  let i := rfind "." nm in
  (0 <? i) && (i <? len nm - 1).

(** [p.suffix] and [p.stem]: split the name at its last dot, unless that
    dot is the first or the last character. *)
Definition suffix (p : PurePath) : string :=
  let nm := name p in
  if has_suffix nm then slice_from (rfind "." nm) nm else "".

Definition stem (p : PurePath) : string :=
  let nm := name p in
  if has_suffix nm then slice_to (rfind "." nm) nm else nm.

(** [p.with_name(nm)]. *)
Definition with_name (p : PurePath) (nm : string) : result PurePath :=
  if String.eqb (name p) "" then
    Raise (ValueError (repr p +:+ " has an empty name"))
  else if String.eqb nm "" || contains_char sep nm || String.eqb nm "." then
    Raise (ValueError ("Invalid name " +:+ pystr.repr nm))
  else Return {| root := root p; tail := removelast (tail p) ++ [nm] |}.

(** [p.with_suffix(sfx)]. *)
Definition with_suffix (p : PurePath) (sfx : string) : result PurePath :=
  if contains_char sep sfx then
    Raise (ValueError ("Invalid suffix " +:+ pystr.repr sfx))
  else if negb (String.eqb sfx "") && negb (startswith_char "." sfx)
          || String.eqb sfx "." then
    Raise (ValueError ("Invalid suffix " +:+ pystr.repr sfx))
  else
    let nm := name p in
    if String.eqb nm "" then
      Raise (ValueError (repr p +:+ " has an empty name"))
    else
      let old_suffix := suffix p in
      let nm' :=
        if String.eqb old_suffix "" then nm +:+ sfx
        else slice_to (len nm - len old_suffix) nm +:+ sfx in
      Return {| root := root p; tail := removelast (tail p) ++ [nm'] |}.

(** [p / key] for a string [key]: an absolute [key] replaces [p]. *)
Definition truediv (p : PurePath) (key : string) : PurePath :=
  let q := Path key in
  if String.eqb (root q) "" then {| root := root p; tail := tail p ++ tail q |}
  else q.

End pathlib.

Notation "p // key" := (pathlib.truediv p key) (at level 40, left associativity).

(** [os.path.join(a, b)] (posixpath). *)
Definition os_path_join (a b : string) : string :=
  if pystr.startswith_char "/" b then b
  else if String.eqb a "" || pystr.endswith_char "/" a then a +:+ b
  else a +:+ "/" +:+ b.

(** ** The world: a file system and the trace of calls *)

(** An entry of the file system: a regular file with its bytes, a
    directory, or a special file (a device, a FIFO, a socket).  Entries are
    keyed by the path string handed to the system call, in a flat name
    space: an entry does not need its parent directory to exist, and a
    directory is a marker without a list of children. *)
Inductive node :=
  | File (content : list Byte.byte)
  | Dir
  | Special.

Abbreviation FS := (gmap string node).

(** The options handed to [yt_dlp.YoutubeDL]. *)
Module yt_dlp.
Record Postprocessor := mkPostprocessor {
  key : string;
  preferredcodec : string;
  preferredquality : string
}.
Record Options := mkOptions {
  format : string;
  outtmpl : string;
  quiet : bool;
  noplaylist : bool;
  ignoreerrors : bool;
  postprocessors : list Postprocessor
}.
End yt_dlp.

(** The trace records every entry into one of the three stage functions and
    every call of an external tool, in order. *)
Inductive event :=
  | Enter_download_audio (youtube_url file_name : string)
  | Enter_separate_audio (file_path : string)
  | Enter_keep_only_sound (input_file : string)
  | Call_ydl (opts : yt_dlp.Options) (url : string)
  | Call_spleeter (config file destination : string)
  | Call_subprocess (cmd : list string).

Record World := mkWorld { fs : FS; trace : list event }.

Definition is_fetcher_event (ev : event) : bool :=
  match ev with
  | Enter_download_audio _ _ | Call_ydl _ _ => true
  | _ => false
  end.

Definition is_separator_event (ev : event) : bool :=
  match ev with
  | Enter_separate_audio _ | Call_spleeter _ _ _ => true
  | _ => false
  end.

Definition is_trimmer_event (ev : event) : bool :=
  match ev with
  | Enter_keep_only_sound _ | Call_subprocess _ => true
  | _ => false
  end.

(** ** The monad of the program: state and exceptions *)

(** A computation runs in a world and either returns or raises; the changes
    made before a raise stay. *)
Definition M (A : Type) : Type := World → result A * World.

Definition ret {A} (a : A) : M A := λ w, (Return a, w).
Definition raise {A} (e : exn) : M A := λ w, (Raise e, w).

Definition bind {A B} (m : M A) (k : A → M B) : M B :=
  λ w, match m w with
       | (Return a, w1) => k a w1
       | (Raise e, w1) => (Raise e, w1)
       end.

Notation "x <- m ;; k" := (bind m (λ x, k))
  (at level 100, m at next level, right associativity).
Notation "m ;; k" := (bind m (λ _, k))
  (at level 100, right associativity).

(** [try: body / except Exception as e: handler e]. *)
Definition try_except {A} (body : M A) (handler : exn → M A) : M A :=
  λ w, match body w with
       | (Return a, w1) => (Return a, w1)
       | (Raise e, w1) => handler e w1
       end.

(** A pure step that may raise. *)
Definition lift {A} (r : result A) : M A := λ w, (r, w).

Definition log (ev : event) : M unit :=
  λ w, (Return tt, {| fs := fs w; trace := trace w ++ [ev] |}).

(** A call into an external tool: it either raises a Python exception of its
    own or returns, and only it knows what it does to the file system, in
    either case. *)
Definition Ext (A : Type) : Type := World → (PyError + A) * World.

(** [try: call / except Exception as e: handler e], for a body that is one
    tool call. *)
Definition try_call {A B} (call : Ext A) (handler : PyError → M B)
    (k : A → M B) : M B :=
  λ w, match call w with
       | (inr a, w1) => k a w1
       | (inl e, w1) => handler e w1
       end.

(** A tool call outside any [try]: its exception propagates. *)
Definition call_unprotected {A} (call : Ext A) : M A :=
  λ w, match call w with
       | (inr a, w1) => (Return a, w1)
       | (inl e, w1) => (Raise (OtherException e), w1)
       end.

(** ** The environment: the external tools and the operating system *)

(** The environment of the service: where the script lives, the three
    tools, and the operating system.  A tool is given the file system; it
    answers with an exception or a value, and with the file system it leaves
    behind in either case. *)
Record Env := mkEnv {
  BASE_DIR : pathlib.PurePath;
  (** [with yt_dlp.YoutubeDL(opts) as ydl: ydl.download([url])] *)
  ydl_download : yt_dlp.Options → string → FS → (PyError + unit) * FS;
  (** [Separator(config).separate_to_file(file, destination)] *)
  spleeter_separate : string → string → string → FS → (PyError + unit) * FS;
  (** [subprocess.run(cmd, stdout=DEVNULL, stderr=DEVNULL)]: the return code
      of the finished process, or the exception of a failed launch. *)
  subprocess_run : list string → FS → (PyError + Z) * FS;
  (** What [os.mkdir(path)] raises when nothing exists at [path] and the
      directory is not made all the same: [FileNotFoundError] for a missing
      parent, [OSError] for a name too long, [ValueError] for an embedded
      NUL, and whatever else the system refuses a directory for. *)
  mkdir_refused : string → FS → option PyError
}.

(** ** The operating system calls the program makes *)

Definition OSError (cls msg : string) : exn :=
  OtherException (mkPyError cls msg).

(** [os.path.exists(path)]. *)
Definition os_path_exists (path : string) : M bool :=
  λ w, (Return (bool_decide (is_Some (fs w !! path))), w).

(** [os.path.isdir(path)]. *)
Definition os_path_isdir (path : string) : M bool :=
  λ w, (Return (match fs w !! path with Some Dir => true | _ => false end), w).

(** [os.mkdir(path)]: an existing entry, of any kind, is in the way; where
    there is none the system may still refuse. *)
Definition os_mkdir (env : Env) (path : string) : M unit :=
  λ w, match fs w !! path with
       | Some _ =>
           (Raise (OSError "FileExistsError"
                     ("[Errno 17] File exists: " +:+ pystr.repr path)), w)
       | None =>
           match mkdir_refused env path (fs w) with
           | Some e => (Raise (OtherException e), w)
           | None =>
               (Return tt, {| fs := <[path := Dir]> (fs w); trace := trace w |})
           end
       end.

(** [p.mkdir(exist_ok=exist_ok)]: an existing directory is accepted when
    [exist_ok] is set, any other existing entry never is.  A refusal of the
    system is met only where nothing exists, where [is_dir] is false: it is
    raised again whatever its class, as [pathlib] does ([FileNotFoundError]
    at once without [parents], any other [OSError] after the test of
    [is_dir], and an exception that is no [OSError] is not caught). *)
Definition Path_mkdir (env : Env) (p : pathlib.PurePath) (exist_ok : bool)
    : M unit :=
  try_except (os_mkdir env (pathlib.str p))
    (λ e, is_dir <- os_path_isdir (pathlib.str p) ;;
          if negb exist_ok || negb is_dir then raise e else ret tt).

(** The text of an [OSError] that names two paths. *)
Definition strerror2 (errno_text src dst : string) : string :=
  errno_text +:+ ": " +:+ pystr.repr src +:+ " -> " +:+ pystr.repr dst.

(** [os.replace(src, dst)]: rename [src] onto [dst], replacing it.  What is
    no directory cannot replace a directory, nor a directory what is none; a
    directory replaces a directory (the model keeps no children that could
    make it non-empty). *)
Definition os_replace (src dst : string) : M unit :=
  λ w, match fs w !! src, fs w !! dst with
       | None, _ =>
           (Raise (OSError "FileNotFoundError"
                     (strerror2 "[Errno 2] No such file or directory" src dst)),
            w)
       | Some (File _ | Special), Some Dir =>
           (Raise (OSError "IsADirectoryError"
                     (strerror2 "[Errno 21] Is a directory" src dst)), w)
       | Some Dir, Some (File _ | Special) =>
           (Raise (OSError "NotADirectoryError"
                     (strerror2 "[Errno 20] Not a directory" src dst)), w)
       | Some n, _ =>
           (Return tt,
            {| fs := <[dst := n]> (delete src (fs w)); trace := trace w |})
       end.

(** ** JSON bodies and what a handler hands to the framework *)

#[warnings="-register-all"] Inductive json :=
  | JString (s : string)
  | JObject (fields : list (string * json)).

(** What a path operation returns: a [JSONResponse], a plain dict, or a
    [FileResponse]. *)
Inductive handler_value :=
  | JSONResponse (status_code : Z) (content : json)
  | Dict (content : json)
  | FileResponse (path media_type : string).

Definition error_body (msg : string) : json := JObject [("error", JString msg)].
Definition file_body (ref : string) : json := JObject [("file", JString ref)].
Definition detail_body (msg : string) : json := JObject [("detail", JString msg)].

(** ** The program *)

Section program.
Context (env : Env).
Import pathlib.

Definition DOWNLOAD_DIR : PurePath := BASE_DIR env // "Downloads".
Definition OUTPUT_DIR : PurePath := BASE_DIR env // "output".

(** Module initialisation: both directories are created if absent. *)
Definition startup : M unit :=
  Path_mkdir env DOWNLOAD_DIR true ;;
  Path_mkdir env OUTPUT_DIR true.

(** The calls into the tools, each recorded in the trace. *)
Definition call_ydl (opts : yt_dlp.Options) (url : string) : Ext unit :=
  λ w,
    let '(r, files') := ydl_download env opts url (fs w) in
    (r, {| fs := files'; trace := trace w ++ [Call_ydl opts url] |}).

Definition call_spleeter (config file destination : string) : Ext unit :=
  λ w,
    let '(r, files') := spleeter_separate env config file destination (fs w) in
    (r, {| fs := files';
           trace := trace w ++ [Call_spleeter config file destination] |}).

Definition call_subprocess (cmd : list string) : Ext Z :=
  λ w,
    let '(r, files') := subprocess_run env cmd (fs w) in
    (r, {| fs := files'; trace := trace w ++ [Call_subprocess cmd] |}).

(** *** Step 1: download audio *)

Definition ydl_opts (outtmpl : string) : yt_dlp.Options :=
  {| yt_dlp.format := "bestaudio[ext=m4a]/bestaudio/best";
     yt_dlp.outtmpl := outtmpl;
     yt_dlp.quiet := true;
     yt_dlp.noplaylist := true;
     yt_dlp.ignoreerrors := true;
     yt_dlp.postprocessors :=
       [ {| yt_dlp.key := "FFmpegExtractAudio";
            yt_dlp.preferredcodec := "mp3";
            yt_dlp.preferredquality := "192" |} ] |}.

Definition download_audio (youtube_url file_name : string) : M string :=
  log (Enter_download_audio youtube_url file_name) ;;
  let output_path := DOWNLOAD_DIR // file_name in
  template <- lift (with_suffix output_path "") ;;
  try_call (call_ydl (ydl_opts (str template)) youtube_url)
    (λ e, raise (HTTPException 400 ("Download failed: " +:+ exc_str e)))
    (λ _,
      let final_file := str output_path +:+ ".mp3" in
      ret final_file).

(** *** Step 2: separate vocals and music *)

Definition separate_audio (file_path : string) : M string :=
  log (Enter_separate_audio file_path) ;;
  let song_name := stem (Path file_path) in
  let song_output := OUTPUT_DIR // song_name in
  Path_mkdir env song_output true ;;
  try_call (call_spleeter "spleeter:2stems" file_path (str OUTPUT_DIR))
    (λ e, raise (HTTPException 500 ("Separation failed: " +:+ exc_str e)))
    (λ _, ret (str song_output)).

(** *** Step 3: keep only the audible parts *)

Definition silenceremove : string :=
  "silenceremove=start_periods=1:start_threshold=-40dB:start_silence=0.1:stop_periods=-1:stop_threshold=-40dB:stop_silence=0.1".

Definition ffmpeg_cmd (input_file output_file : string) : list string :=
  ["ffmpeg"; "-y"; "-i"; input_file; "-af"; silenceremove; output_file].

Definition keep_only_sound (input_file : string) : M string :=
  log (Enter_keep_only_sound input_file) ;;
  output_file <- lift (with_name (Path input_file)
                         (stem (Path input_file) +:+ "_sound.wav")) ;;
  let cmd := ffmpeg_cmd input_file (str output_file) in
  _ <- call_unprotected (call_subprocess cmd) ;;
  ret (str output_file).

(** *** The processing endpoint *)

Definition accepted_file_types : list string := ["vocals"; "music"].

(** The body of the [try] block of [process_audio]. *)
Definition pipeline (youtube_url file_name file_type : string)
    : M handler_value :=
  file_path <- download_audio youtube_url file_name ;;
  out_dir <- separate_audio file_path ;;
  let selected_file :=
    if String.eqb file_type "vocals" then os_path_join out_dir "vocals.wav"
    else os_path_join out_dir "accompaniment.wav" in
  sound_file <- keep_only_sound selected_file ;;
  let final_path := OUTPUT_DIR // (stem (Path file_name) +:+ "_sound.wav") in
  os_replace sound_file (str final_path) ;;
  ret (Dict (file_body ("/file?v=" +:+ str final_path))).

Definition process_audio (youtube_url file_name file_type : string)
    : M handler_value :=
  if negb (bool_decide (file_type ∈ accepted_file_types)) then
    ret (JSONResponse 400 (error_body "file_type must be 'vocals' or 'music'"))
  else
    try_except (pipeline youtube_url file_name file_type)
      (λ e, match e with
            | HTTPException status_code detail =>
                ret (JSONResponse status_code (error_body detail))
            | OtherException e =>
                ret (JSONResponse 500 (error_body (exc_str e)))
            end).

(** *** Serving files *)

Definition get_file (v : string) : M handler_value :=
  found <- os_path_exists v ;;
  if negb found then raise (HTTPException 404 "File not found")
  else ret (FileResponse v "audio/wav").

End program.

(** ** The web framework around the handlers *)

Inductive body :=
  | BodyJson (j : json)
  | BodyBytes (b : list Byte.byte)
  | BodyText (s : string).

Record response := mkResponse {
  status : Z;
  content_type : string;
  payload : body
}.

Definition internal_server_error : response :=
  {| status := 500; content_type := "text/plain; charset=utf-8";
     payload := BodyText "Internal Server Error" |}.

(** What the client receives for the outcome of a path operation.  A dict is
    serialised as a 200 JSON response; a [FileResponse] streams the regular
    file at its path when the response is sent and fails inside the framework
    for a directory, a special file or nothing at all; a raised [HTTPException] goes through fastapi's default
    handler, which answers with its status and the body [{"detail": ...}];
    any other exception is an internal server error. *)
Definition fastapi_send (r : result handler_value) (files : FS) : response :=
  match r with
  | Return (JSONResponse status_code content) =>
      {| status := status_code; content_type := "application/json";
         payload := BodyJson content |}
  | Return (Dict content) =>
      {| status := 200; content_type := "application/json";
         payload := BodyJson content |}
  | Return (FileResponse path media_type) =>
      match files !! path with
      | Some (File b) =>
          {| status := 200; content_type := media_type; payload := BodyBytes b |}
      | _ => internal_server_error
      end
  | Raise (HTTPException status_code detail) =>
      {| status := status_code; content_type := "application/json";
         payload := BodyJson (detail_body detail) |}
  | Raise (OtherException _) => internal_server_error
  end.

Definition serve (handler : M handler_value) : World → response * World :=
  λ w, let '(r, w') := handler w in (fastapi_send r (fs w'), w').

(** [GET /process?youtube_url=..&file_name=..&file_type=..] *)
Definition GET_process (env : Env) (youtube_url file_name file_type : string)
    : World → response * World :=
  serve (process_audio env youtube_url file_name file_type).

(** [GET /file?v=..] *)
Definition GET_file (env : Env) (v : string) : World → response * World :=
  serve (get_file v).

(** ** A concrete environment, for running the model *)

Module demo.
Import pathlib.

Definition mp3 : list Byte.byte := [Byte.x49; Byte.x44; Byte.x33].
Definition wav_vocals : list Byte.byte := [Byte.x52; Byte.x49; Byte.x00; Byte.x00; Byte.x01].
Definition wav_music : list Byte.byte := [Byte.x52; Byte.x49; Byte.x00; Byte.x02; Byte.x00].

(** The downloader: one URL is unreachable and raises; one names a video
    whose extraction fails, which [ignoreerrors] turns into a silent
    return; every other URL yields an mp3 next to the output template. *)
Definition ydl (opts : yt_dlp.Options) (url : string) (files : FS)
    : (PyError + unit) * FS :=
  if String.eqb url "https://unreachable.example/watch?id=0" then
    (inl (mkPyError "DownloadError" "ERROR: unable to download webpage"), files)
  else if String.eqb url "https://video.example/watch?id=private"
          && yt_dlp.ignoreerrors opts then
    (inr tt, files)
  else (inr tt, <[yt_dlp.outtmpl opts +:+ ".mp3" := File mp3]> files).

(** The separator: it needs its input file, and writes the two stems into
    a directory named after the input inside the destination. *)
Definition spleeter (config file destination : string) (files : FS)
    : (PyError + unit) * FS :=
  match files !! file with
  | Some (File _) =>
      let dir := os_path_join destination (stem (Path file)) in
      (inr tt,
       <[os_path_join dir "accompaniment.wav" := File wav_music]>
         (<[os_path_join dir "vocals.wav" := File wav_vocals]> files))
  | _ => (inl (mkPyError "SpleeterError" ("cannot load " +:+ file)), files)
  end.

(** The silence filter: ffmpeg with an input file and an output file; the
    filtered stream drops the zero bytes.  A missing input ends with a
    non-zero return code and no output. *)
Definition ffmpeg (cmd : list string) (files : FS) : (PyError + Z) * FS :=
  match cmd with
  | [_; _; _; input_file; _; _; output_file] =>
      match files !! input_file with
      | Some (File b) =>
          (inr 0, <[output_file :=
                      File (List.filter (λ x, negb (Byte.eqb x Byte.x00)) b)]> files)
      | _ => (inr 1, files)
      end
  | _ =>
      (inl (mkPyError "FileNotFoundError" "[Errno 2] No such file or directory"),
       files)
  end.

Definition env : Env :=
  {| BASE_DIR := Path "/srv/app";
     ydl_download := ydl;
     spleeter_separate := spleeter;
     subprocess_run := ffmpeg;
     mkdir_refused := λ _ _, None |}.

(** The file system right after start-up. *)
Definition fs0 : FS :=
  <["/srv/app/output" := Dir]> (<["/srv/app/Downloads" := Dir]>
    (<["/etc/hostname" := File [Byte.x68; Byte.x0a]]> ∅)).

Definition w0 : World := {| fs := fs0; trace := [] |}.

Definition url_ok : string := "https://video.example/watch?id=abc".
Definition url_unreachable : string := "https://unreachable.example/watch?id=0".
Definition url_private : string := "https://video.example/watch?id=private".

(** The world after [download_audio] returned for the private video: no
    file was written. *)
Definition w_private : World :=
  {| fs := fs0;
     trace := [Enter_download_audio url_private "song1";
               Call_ydl (ydl_opts "/srv/app/Downloads/song1") url_private] |}.

(** The same world once [separate_audio] has been entered and has made its
    directory. *)
Definition w_private_dir : World :=
  {| fs := <["/srv/app/output/song1" := Dir]> fs0;
     trace := trace w_private ++ [Enter_separate_audio "/srv/app/Downloads/song1.mp3"] |}.

(** The worlds along the successful run for [url_ok], stage by stage. *)
Definition w_fetched : World := (download_audio env url_ok "song1" w0).2.
Definition w_separated : World :=
  (separate_audio env "/srv/app/Downloads/song1.mp3" w_fetched).2.
Definition w_trimmed : World :=
  (keep_only_sound env "/srv/app/output/song1/vocals.wav" w_separated).2.
Definition w_final : World :=
  (os_replace "/srv/app/output/song1/vocals_sound.wav"
     "/srv/app/output/song1_sound.wav" w_trimmed).2.

End demo.

(** ** Reading a run *)

(** The response with a JSON body. *)
Definition json_response (status_code : Z) (content : json) : response :=
  {| status := status_code; content_type := "application/json";
     payload := BodyJson content |}.

(** No event of the given stage was recorded between the worlds [w] and
    [w']: the stage was not invoked during the run. *)
Definition never_invoked (stage : event → bool) (w w' : World) : Prop :=
  ∃ evs, trace w' = trace w ++ evs ∧ ∀ ev, ev ∈ evs → stage ev = false.

(** The world after logging an event. *)
Definition logged (w : World) (evs : list event) : World :=
  {| fs := fs w; trace := trace w ++ evs |}.

(** The two [except] clauses of [process_audio], as a function of the
    exception. *)
Definition on_exception (e : exn) : M handler_value :=
  match e with
  | HTTPException status_code detail =>
      ret (JSONResponse status_code (error_body detail))
  | OtherException e => ret (JSONResponse 500 (error_body (exc_str e)))
  end.

(** The path [keep_only_sound] derives from its input: the last component
    replaced by [<stem>_sound.wav]. *)
Definition sound_path (input_file : string) : pathlib.PurePath :=
  let p := pathlib.Path input_file in
  {| pathlib.root := pathlib.root p;
     pathlib.tail := removelast (pathlib.tail p)
                       ++ [pathlib.stem p +:+ "_sound.wav"] |}.

(** A path in normal form, as [pathlib] keeps it: one of the three roots, and
    components that are neither empty nor a dot and hold no separator. *)
Definition normal (p : pathlib.PurePath) : Prop :=
  pathlib.root p ∈ ["" ; "/" ; "//"] ∧
  Forall (λ x, pathlib.keep_part x = true
               ∧ pystr.contains_char pathlib.sep x = false) (pathlib.tail p).

(** The kinds of failure of a processing request: a rejected [file_type],
    a downloader that raised, a separator that raised, and anything else
    that raised, each with the exception at its origin. *)
Inductive failure :=
  | ValidationError
  | RetrievalError (e : PyError)
  | SeparationError (e : PyError)
  | UnknownError (e : PyError).

(** The status a kind of failure is to be answered with: 400 for validation
    and retrieval, 500 for separation and the unknown. *)
Definition failure_status (f : failure) : Z :=
  match f with
  | ValidationError | RetrievalError _ => 400
  | SeparationError _ | UnknownError _ => 500
  end.

(** The message the program has for it. *)
Definition failure_message (f : failure) : string :=
  match f with
  | ValidationError => "file_type must be 'vocals' or 'music'"
  | RetrievalError e => "Download failed: " +:+ exc_str e
  | SeparationError e => "Separation failed: " +:+ exc_str e
  | UnknownError e => exc_str e
  end.

(** What went wrong in the request that starts in [w], and the world it
    leaves: the step that failed decides the kind, not the answer. *)
Inductive failed (env : Env) (youtube_url file_name file_type : string)
    (w : World) : failure → World → Prop :=
  | failed_validation :
      file_type ∉ accepted_file_types →
      failed env youtube_url file_name file_type w ValidationError w
  | failed_retrieval template e files' :
      file_type ∈ accepted_file_types →
      pathlib.with_suffix (DOWNLOAD_DIR env // file_name) "" = Return template →
      ydl_download env (ydl_opts (pathlib.str template)) youtube_url (fs w)
        = (inl e, files') →
      failed env youtube_url file_name file_type w (RetrievalError e)
        {| fs := files';
           trace := trace w ++ [Enter_download_audio youtube_url file_name;
                                Call_ydl (ydl_opts (pathlib.str template))
                                  youtube_url] |}
  | failed_separation file_path w1 w1' e files' :
      file_type ∈ accepted_file_types →
      download_audio env youtube_url file_name w = (Return file_path, w1) →
      Path_mkdir env (OUTPUT_DIR env // pathlib.stem (pathlib.Path file_path))
        true (logged w1 [Enter_separate_audio file_path]) = (Return tt, w1') →
      spleeter_separate env "spleeter:2stems" file_path
        (pathlib.str (OUTPUT_DIR env)) (fs w1') = (inl e, files') →
      failed env youtube_url file_name file_type w (SeparationError e)
        {| fs := files';
           trace := trace w1' ++
             [Call_spleeter "spleeter:2stems" file_path
                (pathlib.str (OUTPUT_DIR env))] |}
  | failed_template e :
      file_type ∈ accepted_file_types →
      pathlib.with_suffix (DOWNLOAD_DIR env // file_name) ""
        = Raise (OtherException e) →
      failed env youtube_url file_name file_type w (UnknownError e)
        (logged w [Enter_download_audio youtube_url file_name])
  | failed_mkdir file_path w1 e w2 :
      file_type ∈ accepted_file_types →
      download_audio env youtube_url file_name w = (Return file_path, w1) →
      Path_mkdir env (OUTPUT_DIR env // pathlib.stem (pathlib.Path file_path))
        true (logged w1 [Enter_separate_audio file_path])
        = (Raise (OtherException e), w2) →
      failed env youtube_url file_name file_type w (UnknownError e) w2
  | failed_trimmer file_path w1 out_dir w2 e w3 :
      file_type ∈ accepted_file_types →
      download_audio env youtube_url file_name w = (Return file_path, w1) →
      separate_audio env file_path w1 = (Return out_dir, w2) →
      keep_only_sound env
        (if String.eqb file_type "vocals" then os_path_join out_dir "vocals.wav"
         else os_path_join out_dir "accompaniment.wav") w2
        = (Raise (OtherException e), w3) →
      failed env youtube_url file_name file_type w (UnknownError e) w3
  | failed_move file_path w1 out_dir w2 sound_file w3 e w4 :
      file_type ∈ accepted_file_types →
      download_audio env youtube_url file_name w = (Return file_path, w1) →
      separate_audio env file_path w1 = (Return out_dir, w2) →
      keep_only_sound env
        (if String.eqb file_type "vocals" then os_path_join out_dir "vocals.wav"
         else os_path_join out_dir "accompaniment.wav") w2
        = (Return sound_file, w3) →
      os_replace sound_file
        (pathlib.str (OUTPUT_DIR env
                      // (pathlib.stem (pathlib.Path file_name) +:+ "_sound.wav")))
        w3 = (Raise (OtherException e), w4) →
      failed env youtube_url file_name file_type w (UnknownError e) w4.

(** A body that is a JSON object with an [error] field. *)
Definition has_error_field (b : body) : Prop :=
  ∃ fields msg, b = BodyJson (JObject fields) ∧ ("error", JString msg) ∈ fields.

(** ** Two more environments: a filter that fails, and no filter at all *)

Module demo_filter.

(** ffmpeg runs, writes nothing and ends with return code 1. *)
Definition failing_ffmpeg (cmd : list string) (files : FS) : (PyError + Z) * FS :=
  (inr 1, files).

(** There is no ffmpeg to run. *)
Definition missing_ffmpeg (cmd : list string) (files : FS) : (PyError + Z) * FS :=
  (inl (mkPyError "FileNotFoundError"
          "[Errno 2] No such file or directory: 'ffmpeg'"), files).

Definition env_failing : Env :=
  {| BASE_DIR := BASE_DIR demo.env;
     ydl_download := demo.ydl;
     spleeter_separate := demo.spleeter;
     subprocess_run := failing_ffmpeg;
     mkdir_refused := mkdir_refused demo.env |}.

Definition env_missing : Env :=
  {| BASE_DIR := BASE_DIR demo.env;
     ydl_download := demo.ydl;
     spleeter_separate := demo.spleeter;
     subprocess_run := missing_ffmpeg;
     mkdir_refused := mkdir_refused demo.env |}.

End demo_filter.

(** ** An operating system that refuses long names *)

Module demo_os.

(** No component of a path is longer than 255 characters. *)
Definition name_too_long (path : string) (files : FS) : option PyError :=
  if forallb (λ x, (String.length x <=? 255)%nat) (pystr.split "/" path) then None
  else Some (mkPyError "OSError"
               ("[Errno 36] File name too long: " +:+ pystr.repr path)).

Definition env : Env :=
  {| BASE_DIR := BASE_DIR demo.env;
     ydl_download := demo.ydl;
     spleeter_separate := demo.spleeter;
     subprocess_run := demo.ffmpeg;
     mkdir_refused := name_too_long |}.

(** A name of 256 characters. *)
Definition long_name : string :=
  string_of_list_ascii (List.repeat "a"%char 256).

End demo_os.

(** The events of a request in which every stage runs, in order. *)
Definition full_run (env : Env) (youtube_url file_name : string)
    (opts : yt_dlp.Options) (file_path selected_file sound_file : string)
    : list event :=
  [Enter_download_audio youtube_url file_name;
   Call_ydl opts youtube_url;
   Enter_separate_audio file_path;
   Call_spleeter "spleeter:2stems" file_path (pathlib.str (OUTPUT_DIR env));
   Enter_keep_only_sound selected_file;
   Call_subprocess (ffmpeg_cmd selected_file sound_file)].

(** * Properties *)

(** ** Strings *)

Section string_facts.
Import pystr.

Lemma append_cons a s t : String a s +:+ t = String a (s +:+ t).
Proof. reflexivity. Qed.

Lemma append_empty_l t : "" +:+ t = t.
Proof. reflexivity. Qed.

Lemma append_empty_r s : s +:+ "" = s.
Proof. induction s as [|a s IH]; [reflexivity|]. rewrite append_cons, IH. reflexivity. Qed.

Lemma append_assoc s t u : (s +:+ t) +:+ u = s +:+ (t +:+ u).
Proof.
  induction s as [|a s IH]; [reflexivity|].
  rewrite !append_cons, IH. reflexivity.
Qed.

Lemma append_inv_l s t u : s +:+ t = s +:+ u → t = u.
Proof.
  induction s as [|a s IH]; [trivial|].
  rewrite !append_cons. intros [= H]. auto.
Qed.

Lemma length_append s t :
  String.length (s +:+ t) = (String.length s + String.length t)%nat.
Proof.
  induction s as [|a s IH]; [reflexivity|].
  rewrite append_cons. simpl. rewrite IH. reflexivity.
Qed.

Lemma contains_char_append c s t :
  contains_char c (s +:+ t) = contains_char c s || contains_char c t.
Proof.
  induction s as [|a s IH]; [reflexivity|].
  rewrite append_cons. simpl. rewrite IH, orb_assoc. reflexivity.
Qed.

Lemma startswith_char_contains c s :
  contains_char c s = false → startswith_char c s = false.
Proof.
  destruct s as [|a s]; [reflexivity|]. simpl.
  intros [H _]%orb_false_iff. exact H.
Qed.

Lemma startswith_char_append c s t :
  s ≠ "" → startswith_char c (s +:+ t) = startswith_char c s.
Proof. destruct s; [congruence|reflexivity]. Qed.

(** Taking a prefix cannot make a character appear. *)
Lemma contains_char_substring c n s :
  contains_char c s = false → contains_char c (String.substring 0 n s) = false.
Proof.
  revert n. induction s as [|a s IH]; intros [|n]; simpl; try reflexivity.
  intros [H1 H2]%orb_false_iff. rewrite H1. simpl. auto.
Qed.

Lemma substring_all s : String.substring 0 (String.length s) s = s.
Proof. induction s as [|a s IH]; simpl; [reflexivity|]. rewrite IH. reflexivity. Qed.

(** A string is its prefix of length [n] followed by the rest. *)
Lemma substring_split n s :
  (n ≤ String.length s)%nat →
  String.substring 0 n s
    +:+ String.substring n (String.length s - n) s = s.
Proof.
  revert n. induction s as [|a s IH]; intros [|n] Hn.
  - reflexivity.
  - simpl in Hn. lia.
  - rewrite Nat.sub_0_r, substring_all. reflexivity.
  - simpl. rewrite append_cons. f_equal. apply IH. simpl in Hn. lia.
Qed.

(** [rfind] points at an occurrence of the character. *)
Lemma rfind_range c s : -1 ≤ rfind c s < len s.
Proof.
  unfold len. induction s as [|a s IH]; simpl; [lia|].
  destruct (0 <=? rfind c s) eqn:E; [lia|].
  destruct (Ascii.eqb a c); lia.
Qed.

Lemma rfind_get c s :
  0 ≤ rfind c s → String.get (Z.to_nat (rfind c s)) s = Some c.
Proof.
  induction s as [|a s IH]; simpl; [lia|].
  destruct (0 <=? rfind c s) eqn:E.
  - apply Z.leb_le in E. intros _.
    replace (Z.to_nat (rfind c s + 1)) with (S (Z.to_nat (rfind c s))) by lia.
    auto.
  - destruct (Ascii.eqb a c) eqn:Ea; [|lia].
    apply Ascii.eqb_eq in Ea. subst. reflexivity.
Qed.

(** The slice that starts at an occurrence of [c] starts with [c]. *)
Lemma substring_get_head c n m s :
  String.get n s = Some c → (0 < m)%nat →
  ∃ r, String.substring n m s = String c r.
Proof.
  revert n. induction s as [|a s IH]; intros [|n]; simpl; try discriminate.
  - intros [= ->] Hm. destruct m; [lia|]. eauto.
  - intros H Hm. apply IH; assumption.
Qed.

(** *** Splitting at a separator *)

Lemma split_not_nil c s : split c s ≠ [].
Proof.
  destruct s as [|a s]; simpl; [discriminate|].
  destruct (Ascii.eqb a c); [discriminate|].
  destruct (split c s); discriminate.
Qed.

Lemma split_no_sep c s : Forall (λ x, contains_char c x = false) (split c s).
Proof.
  induction s as [|a s IH]; simpl.
  - repeat constructor.
  - destruct (Ascii.eqb a c) eqn:E.
    + constructor; [reflexivity|assumption].
    + destruct (split c s) as [|h t]; [repeat constructor; simpl; rewrite E; reflexivity|].
      inversion IH; subst. constructor; [|assumption].
      simpl. rewrite E. assumption.
Qed.

(** A string without the separator is one piece. *)
Lemma split_one c s : contains_char c s = false → split c s = [s].
Proof.
  induction s as [|a s IH]; simpl; [reflexivity|].
  intros [H1 H2]%orb_false_iff. rewrite H1, (IH H2). reflexivity.
Qed.

Lemma split_append c s t :
  split c (s +:+ String c t) = split c s ++ split c t.
Proof.
  induction s as [|a s IH].
  - rewrite append_empty_l. simpl. rewrite Ascii.eqb_refl. reflexivity.
  - rewrite append_cons. simpl. rewrite IH.
    destruct (Ascii.eqb a c); [reflexivity|].
    pose proof (split_not_nil c s).
    destruct (split c s); [congruence|reflexivity].
Qed.

(** Joining pieces that hold no separator, then splitting, gives the
    pieces back. *)
Lemma split_concat c parts :
  parts ≠ [] → Forall (λ x, contains_char c x = false) parts →
  split c (String.concat (String c "") parts) = parts.
Proof.
  induction parts as [|x [|y r] IH]; intros Hne Hall; [congruence| |].
  - simpl. apply split_one. inversion Hall; assumption.
  - inversion Hall as [|? ? Hx Hr]; subst.
    change (String.concat (String c "") (x :: y :: r))
      with (x +:+ (String c "" +:+ String.concat (String c "") (y :: r))).
    rewrite append_cons, append_empty_l, split_append, (split_one _ _ Hx).
    rewrite IH; [reflexivity|discriminate|assumption].
Qed.

Lemma endswith_char_inv c s :
  endswith_char c s = true → ∃ s0, s = s0 +:+ String c "".
Proof.
  induction s as [|a s IH]; [discriminate|]. simpl.
  destruct s as [|b s'].
  - intros ->%Ascii.eqb_eq. exists "". reflexivity.
  - intros [s0 E]%IH. exists (String a s0). rewrite E. reflexivity.
Qed.

Lemma endswith_char_snoc c s : endswith_char c (s +:+ String c "") = true.
Proof.
  induction s as [|a s IH]; [simpl; apply Ascii.eqb_refl|].
  rewrite append_cons. simpl. rewrite IH.
  destruct (s +:+ String c "") eqn:E; [|reflexivity].
  destruct s; discriminate.
Qed.

Lemma endswith_char_cons c a s :
  s ≠ "" → endswith_char c (String a s) = endswith_char c s.
Proof. destruct s; [congruence|reflexivity]. Qed.

End string_facts.

(** ** The stages, unfolded *)

Section stages.
Context (env : Env).
Import pathlib.

Lemma download_audio_unfold youtube_url file_name w :
  download_audio env youtube_url file_name w =
  let w1 := logged w [Enter_download_audio youtube_url file_name] in
  match with_suffix (DOWNLOAD_DIR env // file_name) "" with
  | Raise e => (Raise e, w1)
  | Return template =>
      let opts := ydl_opts (str template) in
      let '(r, files') := ydl_download env opts youtube_url (fs w) in
      let w2 := {| fs := files';
                   trace := trace w ++ [Enter_download_audio youtube_url file_name;
                                        Call_ydl opts youtube_url] |} in
      match r with
      | inl e =>
          (Raise (HTTPException 400 ("Download failed: " +:+ exc_str e)), w2)
      | inr _ => (Return (str (DOWNLOAD_DIR env // file_name) +:+ ".mp3"), w2)
      end
  end.
Proof.
  unfold download_audio, bind, log, lift, try_call, call_ydl, logged; simpl.
  destruct (with_suffix _ _) as [template|e]; [|reflexivity].
  simpl. destruct (ydl_download _ _ _ _) as [[e|[]] files']; simpl;
    rewrite <- app_assoc; reflexivity.
Qed.

Lemma Path_mkdir_exist_ok p w :
  Path_mkdir env p true w =
  match fs w !! str p with
  | None =>
      match mkdir_refused env (str p) (fs w) with
      | Some e => (Raise (OtherException e), w)
      | None =>
          (Return tt, {| fs := <[str p := Dir]> (fs w); trace := trace w |})
      end
  | Some Dir => (Return tt, w)
  | Some _ =>
      (Raise (OSError "FileExistsError"
                ("[Errno 17] File exists: " +:+ pystr.repr (str p))), w)
  end.
Proof.
  unfold Path_mkdir, try_except, os_mkdir, bind, os_path_isdir.
  destruct (fs w !! str p) as [[b| |]|] eqn:E; simpl; rewrite ?E;
    try reflexivity.
  destruct (mkdir_refused env (str p) (fs w)); simpl; rewrite ?E; reflexivity.
Qed.

(** Creating the directory never touches the trace. *)
Lemma Path_mkdir_trace p w r w' :
  Path_mkdir env p true w = (r, w') → trace w' = trace w.
Proof.
  rewrite Path_mkdir_exist_ok.
  destruct (fs w !! str p) as [[b| |]|];
    [..|destruct (mkdir_refused env (str p) (fs w))];
    intros [= <- <-]; reflexivity.
Qed.

(** When the directory is there afterwards: it was there before, or nothing
    was and the system made it. *)
Lemma Path_mkdir_Return p w w' :
  Path_mkdir env p true w = (Return tt, w') →
  (fs w !! str p = Some Dir ∧ w' = w)
  ∨ (fs w !! str p = None ∧ mkdir_refused env (str p) (fs w) = None
     ∧ w' = {| fs := <[str p := Dir]> (fs w); trace := trace w |}).
Proof.
  rewrite Path_mkdir_exist_ok.
  destruct (fs w !! str p) as [[b| |]|]; try discriminate.
  - intros [= <-]. left. split; reflexivity.
  - destruct (mkdir_refused env (str p) (fs w)); [discriminate|].
    intros [= <-]. right. repeat split; reflexivity.
Qed.

Lemma Path_mkdir_made p w w' :
  Path_mkdir env p true w = (Return tt, w') →
  fs w' !! str p = Some Dir
  ∧ (∀ k, k ≠ str p → fs w' !! k = fs w !! k)
  ∧ fs w' = <[str p := Dir]> (fs w).
Proof.
  intros [[E ->]|(E & _ & ->)]%Path_mkdir_Return; cbn [fs].
  - split; [exact E|]. split; [reflexivity|]. symmetry. apply insert_id, E.
  - split; [apply lookup_insert_eq|]. split; [|reflexivity].
    intros k Hk. apply lookup_insert_ne. congruence.
Qed.

Lemma Path_mkdir_Dir p w :
  fs w !! str p = Some Dir → Path_mkdir env p true w = (Return tt, w).
Proof. intros E. rewrite Path_mkdir_exist_ok, E. reflexivity. Qed.

(** What is no directory is in the way. *)
Lemma Path_mkdir_blocked p w n :
  fs w !! str p = Some n → n ≠ Dir →
  Path_mkdir env p true w
  = (Raise (OSError "FileExistsError"
              ("[Errno 17] File exists: " +:+ pystr.repr (str p))), w).
Proof.
  intros E Hn. rewrite Path_mkdir_exist_ok, E. destruct n; congruence.
Qed.

Lemma Path_mkdir_refused p w e :
  fs w !! str p = None → mkdir_refused env (str p) (fs w) = Some e →
  Path_mkdir env p true w = (Raise (OtherException e), w).
Proof. intros E Hr. rewrite Path_mkdir_exist_ok, E, Hr. reflexivity. Qed.

Lemma separate_audio_unfold file_path w :
  separate_audio env file_path w =
  let song_output := OUTPUT_DIR env // stem (Path file_path) in
  match Path_mkdir env song_output true (logged w [Enter_separate_audio file_path]) with
  | (Raise e, w1) => (Raise e, w1)
  | (Return _, w1) =>
      let '(r, files') := spleeter_separate env "spleeter:2stems" file_path
                            (str (OUTPUT_DIR env)) (fs w1) in
      let w2 := {| fs := files';
                   trace := trace w1 ++ [Call_spleeter "spleeter:2stems" file_path
                                           (str (OUTPUT_DIR env))] |} in
      match r with
      | inl e =>
          (Raise (HTTPException 500 ("Separation failed: " +:+ exc_str e)), w2)
      | inr _ => (Return (str song_output), w2)
      end
  end.
Proof.
  unfold separate_audio, bind at 1, log, logged; simpl.
  unfold bind.
  destruct (Path_mkdir _ _ _ _) as [[[]|e] w1]; [|reflexivity].
  unfold try_call, call_spleeter; simpl.
  destruct (spleeter_separate _ _ _ _ _) as [[e|[]] files']; reflexivity.
Qed.

Lemma keep_only_sound_unfold input_file w :
  keep_only_sound env input_file w =
  let w1 := logged w [Enter_keep_only_sound input_file] in
  match with_name (Path input_file) (stem (Path input_file) +:+ "_sound.wav") with
  | Raise e => (Raise e, w1)
  | Return output_file =>
      let cmd := ffmpeg_cmd input_file (str output_file) in
      let '(r, files') := subprocess_run env cmd (fs w) in
      let w2 := {| fs := files';
                   trace := trace w ++ [Enter_keep_only_sound input_file;
                                        Call_subprocess cmd] |} in
      match r with
      | inl e => (Raise (OtherException e), w2)
      | inr _ => (Return (str output_file), w2)
      end
  end.
Proof.
  unfold keep_only_sound, bind, log, lift, call_unprotected, call_subprocess,
    logged; simpl.
  destruct (with_name _ _) as [output_file|e]; [|reflexivity].
  simpl. destruct (subprocess_run _ _ _) as [[e|rc] files']; simpl;
    rewrite <- app_assoc; reflexivity.
Qed.

End stages.

(** ** Paths *)

Section path_facts.
Import pystr pathlib.

(** A name is its stem followed by its suffix, and a suffix is empty or
    starts with a dot. *)
Lemma name_stem_suffix p :
  name p = stem p +:+ suffix p ∧ (suffix p = "" ∨ ∃ r, suffix p = String "." r).
Proof.
  unfold stem, suffix, has_suffix.
  pose proof (rfind_range "." (name p)) as Hr. unfold len in *.
  destruct (0 <? rfind "." (name p)) eqn:E1; simpl;
    [|rewrite append_empty_r; auto].
  destruct (rfind "." (name p) <? Z.of_nat (String.length (name p)) - 1) eqn:E2;
    [|rewrite append_empty_r; auto].
  apply Z.ltb_lt in E1, E2. unfold slice_to, slice_from. split.
  - symmetry. apply substring_split. lia.
  - right. apply substring_get_head; [apply rfind_get|]; lia.
Qed.

Lemma stem_no_sep p :
  contains_char sep (name p) = false → contains_char sep (stem p) = false.
Proof.
  intros H. unfold stem. destruct (has_suffix (name p)); [|assumption].
  apply contains_char_substring, H.
Qed.

Lemma keep_part_true x : keep_part x = true ↔ x ≠ "" ∧ x ≠ ".".
Proof.
  unfold keep_part. rewrite andb_true_iff, !negb_true_iff, !String.eqb_neq.
  reflexivity.
Qed.

(** The last component, when there is one. *)
Lemma tail_snoc p : name p ≠ "" → tail p = removelast (tail p) ++ [name p].
Proof.
  unfold name. destruct (tail p) as [|x l] using rev_ind; [simpl; congruence|].
  intros _. rewrite last_snoc, removelast_last. reflexivity.
Qed.

Lemma name_snoc r l x : name {| root := r; tail := l ++ [x] |} = x.
Proof. unfold name. simpl. rewrite last_snoc. reflexivity. Qed.


(** [pathlib] only builds paths in normal form. *)
Lemma Path_normal s : normal (Path s).
Proof.
  unfold normal, Path.
  assert (Hroot : (splitroot s).1 ∈ ["" ; "/" ; "//"]).
  { unfold splitroot. destruct s as [|a [|b r2]]; simpl;
      repeat match goal with |- context [if ?c then _ else _] => destruct c end;
      simpl; set_solver. }
  destruct (splitroot s) as [r rel]. simpl in *. split; [assumption|].
  apply Forall_forall. intros x Hx.
  apply list_elem_of_In, filter_In in Hx as [Hin Hk]. split; [assumption|].
  pose proof (split_no_sep sep rel) as Hall.
  rewrite Forall_forall in Hall. apply Hall, list_elem_of_In, Hin.
Qed.

Lemma normal_name_no_sep p :
  normal p → contains_char sep (name p) = false.
Proof.
  intros [_ Hall]. unfold name.
  destruct (tail p) as [|x l] using rev_ind; [reflexivity|].
  rewrite last_snoc. simpl.
  apply Forall_app in Hall as [_ Hx]. inversion Hx as [|? ? [_ H]]. exact H.
Qed.

Lemma normal_removelast p x :
  normal p → keep_part x = true → contains_char sep x = false →
  normal {| root := root p; tail := removelast (tail p) ++ [x] |}.
Proof.
  intros [Hr Hall] Hk Hs. split; [assumption|]. simpl.
  apply Forall_app. split; [|repeat constructor; assumption].
  destruct (tail p) as [|y l] using rev_ind; [constructor|].
  rewrite removelast_last. apply Forall_app in Hall as [H _]. exact H.
Qed.

(** Printing a normal path and parsing it again gives the path back. *)
Lemma filter_keep_part l :
  Forall (λ x, keep_part x = true ∧ contains_char sep x = false) l →
  List.filter keep_part l = l.
Proof.
  induction 1 as [|x l [Hx _] _ IH]; simpl; [reflexivity|].
  rewrite Hx, IH. reflexivity.
Qed.

Lemma split_concat_tail l :
  Forall (λ x, keep_part x = true ∧ contains_char sep x = false) l →
  List.filter keep_part (split sep (String.concat "/" l)) = l.
Proof.
  intros Hall. destruct l as [|x l]; [reflexivity|].
  change "/"%string with (String sep "").
  rewrite split_concat; [apply filter_keep_part, Hall|discriminate|].
  eapply Forall_impl; [exact Hall|]. intros ? [_ H]. exact H.
Qed.

Lemma concat_not_slash l :
  Forall (λ x, keep_part x = true ∧ contains_char sep x = false) l →
  startswith_char sep (String.concat "/" l) = false.
Proof.
  intros Hall. destruct l as [|x l]; [reflexivity|].
  inversion Hall as [|? ? [Hk Hs] _]; subst.
  apply keep_part_true in Hk as [Hne _].
  destruct l as [|y l]; simpl.
  - apply startswith_char_contains, Hs.
  - change (String.append x ?t) with (x +:+ t).
    rewrite startswith_char_append by assumption.
    apply startswith_char_contains, Hs.
Qed.

Lemma Path_str p : normal p → Path (str p) = p.
Proof.
  destruct p as [r l]. intros [Hr Hall]. cbn [root tail] in *.
  pose proof (concat_not_slash l Hall) as Hc.
  pose proof (split_concat_tail l Hall) as Hf.
  apply list_elem_of_In in Hr. simpl in Hr.
  destruct Hr as [<-|[<-|[<-|[]]]]; unfold str, Path; cbn [root tail].
  - destruct l as [|x l]; [reflexivity|].
    rewrite append_empty_l. remember (String.concat "/" (x :: l)) as c.
    assert (splitroot c = ("", c)) as ->.
    { unfold splitroot. destruct c as [|a s]; [reflexivity|].
      simpl in Hc. rewrite Hc. reflexivity. }
    rewrite Hf. reflexivity.
  - remember (String.concat "/" l) as c.
    change ("/" +:+ c) with (String sep c).
    assert (splitroot (String sep c) = ("/", c)) as ->.
    { unfold splitroot. rewrite Ascii.eqb_refl.
      destruct c as [|b s]; [reflexivity|].
      simpl in Hc. rewrite Hc. reflexivity. }
    rewrite Hf. reflexivity.
  - remember (String.concat "/" l) as c.
    change ("//" +:+ c) with (String sep (String sep c)).
    assert (splitroot (String sep (String sep c)) = ("//", c)) as ->.
    { unfold splitroot. rewrite !Ascii.eqb_refl, Hc. reflexivity. }
    rewrite Hf. reflexivity.
Qed.

(** *** Joining a single component *)

Lemma concat_snoc c l x :
  l ≠ [] → String.concat c (l ++ [x]) = String.concat c l +:+ c +:+ x.
Proof.
  induction l as [|y [|z l] IH]; intros Hne; [congruence|reflexivity|].
  change (String.concat c ((y :: z :: l) ++ [x]))
    with (y +:+ c +:+ String.concat c ((z :: l) ++ [x])).
  rewrite IH by discriminate.
  change (String.concat c (y :: z :: l)) with (y +:+ c +:+ String.concat c (z :: l)).
  rewrite !append_assoc. reflexivity.
Qed.

Lemma Path_part x :
  keep_part x = true → contains_char sep x = false →
  Path x = {| root := ""; tail := [x] |}.
Proof.
  intros Hk Hs.
  rewrite <- (Path_str {| root := ""; tail := [x] |}); [reflexivity|].
  split; [set_solver|repeat constructor; assumption].
Qed.

Lemma str_components p :
  tail p ≠ [] → str p = root p +:+ String.concat "/" (tail p).
Proof.
  unfold str. destruct (tail p); [congruence|]. destruct (root p); reflexivity.
Qed.

(** Below a path with at least one component, a plain name is appended
    after a slash. *)
Lemma str_truediv_part p x :
  tail p ≠ [] → keep_part x = true → contains_char sep x = false →
  str (p // x) = str p +:+ "/" +:+ x.
Proof.
  intros Hne Hk Hs. unfold truediv. rewrite (Path_part x Hk Hs).
  cbn [root tail String.eqb].
  rewrite !str_components; cbn [root tail]; [|assumption|].
  - rewrite concat_snoc by assumption. rewrite !append_assoc. reflexivity.
  - destruct (tail p); discriminate.
Qed.

(** *** The output path of the silence trimmer *)

Lemma sound_name_valid s :
  let nm := stem (Path s) +:+ "_sound.wav" in
  keep_part nm = true ∧ contains_char sep nm = false.
Proof.
  intros nm. split.
  - apply keep_part_true.
    assert (10 ≤ String.length nm)%nat
      by (unfold nm; rewrite length_append; simpl; lia).
    split; intros E; rewrite E in *; simpl in *; lia.
  - unfold nm. rewrite contains_char_append.
    rewrite stem_no_sep; [reflexivity|].
    apply normal_name_no_sep, Path_normal.
Qed.


Lemma with_name_sound s :
  name (Path s) ≠ "" →
  with_name (Path s) (stem (Path s) +:+ "_sound.wav") = Return (sound_path s).
Proof.
  intros Hne. unfold with_name.
  apply String.eqb_neq in Hne. rewrite Hne.
  destruct (sound_name_valid s) as [Hk Hs]. rewrite Hs.
  apply keep_part_true in Hk as [H1 H2].
  apply String.eqb_neq in H1, H2. rewrite H1, H2. reflexivity.
Qed.

Lemma with_name_no_name s nm :
  name (Path s) = "" →
  with_name (Path s) nm
  = Raise (ValueError (repr (Path s) +:+ " has an empty name")).
Proof. intros E. unfold with_name. rewrite E. reflexivity. Qed.




(** What is left of a string after its root still ends with the component
    the string ends with. *)
Lemma splitroot_append x b :
  x = "" ∨ endswith_char sep x = true →
  b ≠ "" → startswith_char sep b = false →
  ∃ y, (splitroot (x +:+ b)).2 = y +:+ b
       ∧ (y = "" ∨ endswith_char sep y = true).
Proof.
  intros Hx Hb Hs.
  destruct x as [|c x']; [exists ""; split; [|left; reflexivity]|].
  { rewrite append_empty_l. destruct b as [|b0 b']; [congruence|].
    simpl in Hs. unfold splitroot. rewrite Hs. reflexivity. }
  destruct Hx as [Hx|Hx]; [discriminate|].
  rewrite append_cons. unfold splitroot.
  destruct (Ascii.eqb c sep) eqn:Ec.
  2:{ exists (String c x'). rewrite append_cons. split; [reflexivity|right; exact Hx]. }
  destruct x' as [|d x''].
  { rewrite append_empty_l. destruct b as [|b0 b']; [congruence|].
    simpl in Hs. rewrite Hs. exists "". split; [reflexivity|left; reflexivity]. }
  rewrite endswith_char_cons in Hx by discriminate.
  rewrite append_cons. destruct (Ascii.eqb d sep) eqn:Ed.
  2:{ exists (String d x''). rewrite append_cons.
      split; [reflexivity|right; exact Hx]. }
  destruct x'' as [|f x3].
  { rewrite append_empty_l, Hs. exists "". split; [reflexivity|left; reflexivity]. }
  rewrite startswith_char_append by discriminate.
  destruct (startswith_char sep (String f x3)).
  - exists (String d (String f x3)). rewrite !append_cons.
    split; [reflexivity|right; exact Hx].
  - exists (String f x3). split; [reflexivity|right].
    rewrite endswith_char_cons in Hx by discriminate. exact Hx.
Qed.

(** A string that ends with a separator followed by a proper component, or
    is that component, is a path with that name. *)
Lemma Path_name_append x b :
  x = "" ∨ endswith_char sep x = true →
  keep_part b = true → contains_char sep b = false →
  name (Path (x +:+ b)) = b.
Proof.
  intros Hx Hk Hs.
  assert (Hb : b ≠ "") by (apply keep_part_true in Hk; tauto).
  assert (Hst : startswith_char sep b = false).
  { destruct b as [|b0 b']; [reflexivity|]. simpl in *.
    apply orb_false_iff in Hs. tauto. }
  destruct (splitroot_append x b Hx Hb Hst) as (y & Ey & Hy).
  unfold Path. destruct (splitroot (x +:+ b)) as [r rel]. simpl in Ey. subst rel.
  unfold name. cbn [tail].
  assert (E : ∃ l, split sep (y +:+ b) = l ++ [b]).
  { destruct Hy as [->|Hy].
    - exists []. rewrite append_empty_l. apply split_one. exact Hs.
    - apply endswith_char_inv in Hy as [y0 ->].
      exists (split sep y0).
      rewrite append_assoc, append_cons, append_empty_l, split_append.
      rewrite (split_one _ _ Hs). reflexivity. }
  destruct E as [l ->]. rewrite List.filter_app. simpl. rewrite Hk, last_snoc.
  reflexivity.
Qed.

(** [os.path.join] with a proper component: the result is a path with that
    name, whatever it is joined to. *)
Lemma os_path_join_name a b :
  keep_part b = true → contains_char sep b = false →
  name (Path (os_path_join a b)) = b.
Proof.
  intros Hk Hs. unfold os_path_join.
  assert (Hst : startswith_char "/" b = false).
  { destruct b as [|b0 b']; [reflexivity|]. simpl in *.
    apply orb_false_iff in Hs. tauto. }
  rewrite Hst.
  destruct (String.eqb a "" || endswith_char "/" a) eqn:E.
  - apply Path_name_append; [|assumption..].
    apply orb_true_iff in E as [E%String.eqb_eq|E]; auto.
  - rewrite <- append_assoc. apply Path_name_append; [|assumption..].
    right. apply endswith_char_snoc.
Qed.

(** Every path [process_audio] hands to [keep_only_sound] has a final
    component. *)
Lemma selected_file_named out_dir :
  name (Path (os_path_join out_dir "vocals.wav")) = "vocals.wav"
  ∧ name (Path (os_path_join out_dir "accompaniment.wav")) = "accompaniment.wav".
Proof. split; apply os_path_join_name; reflexivity. Qed.

End path_facts.

(** ** Traces *)

Lemma never_invoked_app stage w w' evs :
  trace w' = trace w ++ evs → forallb (λ ev, negb (stage ev)) evs = true →
  never_invoked stage w w'.
Proof.
  intros Ht Hall. exists evs. split; [assumption|].
  intros ev Hev. rewrite forallb_forall in Hall.
  apply negb_true_iff, Hall, list_elem_of_In, Hev.
Qed.

Lemma never_invoked_same stage w w' :
  trace w' = trace w → never_invoked stage w w'.
Proof. intros E. apply (never_invoked_app _ _ _ []); [rewrite app_nil_r|]; done. Qed.

Lemma never_invoked_trans stage w w1 w2 :
  never_invoked stage w w1 → never_invoked stage w1 w2 → never_invoked stage w w2.
Proof.
  intros (evs1 & E1 & H1) (evs2 & E2 & H2). exists (evs1 ++ evs2). split.
  - rewrite E2, E1, app_assoc. reflexivity.
  - intros ev [?|?]%elem_of_app; auto.
Qed.

(** ** What a stage has done when it returns, and when it raises *)

Section outcomes.
Context (env : Env).
Import pathlib.

Lemma download_audio_Return youtube_url file_name w file_path w1 :
  download_audio env youtube_url file_name w = (Return file_path, w1) →
  file_path = str (DOWNLOAD_DIR env // file_name) +:+ ".mp3" ∧
  ∃ opts, trace w1 = trace w ++ [Enter_download_audio youtube_url file_name;
                                 Call_ydl opts youtube_url].
Proof.
  rewrite download_audio_unfold. cbv zeta.
  destruct (with_suffix _ _) as [template|e]; [|discriminate].
  destruct (ydl_download _ _ _ _) as [[e|[]] files']; [discriminate|].
  intros [= <- <-]. eauto.
Qed.

(** Go through the guards of a function that is a cascade of tests. *)
Ltac case_guards :=
  repeat match goal with
         | |- (if ?c then _ else _) = _ → _ => destruct c
         | |- (let _ := _ in _) = _ → _ => cbv zeta
         end.

Lemma with_suffix_Raise p sfx e :
  with_suffix p sfx = Raise e → ∃ e', e = OtherException e'.
Proof. unfold with_suffix. case_guards; intros [= <-]; eauto. Qed.

Lemma with_name_Raise p nm e :
  with_name p nm = Raise e → ∃ e', e = OtherException e'.
Proof. unfold with_name. case_guards; intros [= <-]; eauto. Qed.

Lemma with_name_Return s q :
  with_name (Path s) (stem (Path s) +:+ "_sound.wav") = Return q →
  q = sound_path s.
Proof. unfold with_name. case_guards; intros [= <-]; reflexivity. Qed.

(** A failed download is a 400 with the downloader's message; nothing
    after the fetcher has run. *)
Lemma download_audio_Raise youtube_url file_name w e w1 :
  download_audio env youtube_url file_name w = (Raise e, w1) →
  never_invoked is_separator_event w w1 ∧
  never_invoked is_trimmer_event w w1 ∧
  match e with
  | HTTPException status_code detail =>
      status_code = 400 ∧ ∃ e', detail = "Download failed: " +:+ exc_str e'
  | OtherException _ => True
  end.
Proof.
  rewrite download_audio_unfold. cbv zeta.
  destruct (with_suffix _ _) as [template|e0] eqn:Ew.
  - destruct (ydl_download _ _ _ _) as [[e0|[]] files']; [|discriminate].
    intros [= <- <-].
    repeat split; eauto; eapply never_invoked_app; reflexivity.
  - intros [= <- <-]. apply with_suffix_Raise in Ew as [e' ->].
    repeat split; eapply never_invoked_app; reflexivity.
Qed.

Lemma separate_audio_Return file_path w1 out_dir w2 :
  separate_audio env file_path w1 = (Return out_dir, w2) →
  out_dir = str (OUTPUT_DIR env // stem (Path file_path)) ∧
  trace w2 = trace w1 ++ [Enter_separate_audio file_path;
                          Call_spleeter "spleeter:2stems" file_path
                            (str (OUTPUT_DIR env))].
Proof.
  rewrite separate_audio_unfold. cbv zeta.
  destruct (Path_mkdir _ _ _ _) as [[[]|e] w'] eqn:Em; [|discriminate].
  apply Path_mkdir_trace in Em.
  destruct (spleeter_separate _ _ _ _ _) as [[e|[]] files']; [discriminate|].
  intros [= <- <-]. split; [reflexivity|]. simpl.
  rewrite Em. simpl. rewrite <- app_assoc. reflexivity.
Qed.

Lemma Path_mkdir_Raise p w e w' :
  Path_mkdir env p true w = (Raise e, w') → ∃ e', e = OtherException e'.
Proof.
  rewrite Path_mkdir_exist_ok. unfold OSError.
  destruct (fs w !! str p) as [[b| |]|];
    [..|destruct (mkdir_refused env (str p) (fs w))];
    intros [= <- <-]; eauto.
Qed.

(** The ways [download_audio] raises: the downloader raised, which is
    answered with an [HTTPException] 400, or no output template could be
    made, before any call. *)
Lemma download_audio_Raise_cases youtube_url file_name w e w1 :
  download_audio env youtube_url file_name w = (Raise e, w1) →
  (∃ template e' files',
     with_suffix (DOWNLOAD_DIR env // file_name) "" = Return template
     ∧ ydl_download env (ydl_opts (str template)) youtube_url (fs w)
       = (inl e', files')
     ∧ e = HTTPException 400 ("Download failed: " +:+ exc_str e')
     ∧ w1 = {| fs := files';
               trace := trace w ++ [Enter_download_audio youtube_url file_name;
                                    Call_ydl (ydl_opts (str template))
                                      youtube_url] |})
  ∨ (∃ e', with_suffix (DOWNLOAD_DIR env // file_name) ""
           = Raise (OtherException e')
           ∧ e = OtherException e'
           ∧ w1 = logged w [Enter_download_audio youtube_url file_name]).
Proof.
  rewrite download_audio_unfold. cbv zeta.
  destruct (with_suffix _ _) as [template|e0] eqn:Ew.
  - destruct (ydl_download _ _ _ _) as [[e0|[]] files'] eqn:Ey; [|discriminate].
    intros [= <- <-]. left. eauto 10.
  - intros [= <- <-]. right. destruct (with_suffix_Raise _ _ _ Ew) as [e' ->].
    eauto.
Qed.

(** The ways [separate_audio] raises: the separator raised, which is
    answered with an [HTTPException] 500, or the directory of the song could
    not be made, before the separator is called. *)
Lemma separate_audio_Raise_cases file_path w1 e w2 :
  separate_audio env file_path w1 = (Raise e, w2) →
  (∃ w1' e' files',
     Path_mkdir env (OUTPUT_DIR env // stem (Path file_path)) true
       (logged w1 [Enter_separate_audio file_path]) = (Return tt, w1')
     ∧ spleeter_separate env "spleeter:2stems" file_path
         (str (OUTPUT_DIR env)) (fs w1') = (inl e', files')
     ∧ e = HTTPException 500 ("Separation failed: " +:+ exc_str e')
     ∧ w2 = {| fs := files';
               trace := trace w1' ++
                 [Call_spleeter "spleeter:2stems" file_path
                    (str (OUTPUT_DIR env))] |})
  ∨ (∃ e', Path_mkdir env (OUTPUT_DIR env // stem (Path file_path)) true
             (logged w1 [Enter_separate_audio file_path])
           = (Raise (OtherException e'), w2)
           ∧ e = OtherException e').
Proof.
  rewrite separate_audio_unfold. cbv zeta.
  destruct (Path_mkdir _ _ _ _) as [[[]|e0] w'] eqn:Em.
  - destruct (spleeter_separate _ _ _ _ _) as [[e0|[]] files'] eqn:Es;
      [|discriminate].
    intros [= <- <-]. left. eauto 10.
  - intros [= <- <-]. right.
    destruct (Path_mkdir_Raise _ _ _ _ Em) as [e' ->]. eauto.
Qed.

(** A failed separation is a 500 with the separator's message; the trimmer
    has not run. *)
Lemma separate_audio_Raise file_path w1 e w2 :
  separate_audio env file_path w1 = (Raise e, w2) →
  never_invoked is_trimmer_event w1 w2 ∧
  match e with
  | HTTPException status_code detail =>
      status_code = 500 ∧ ∃ e', detail = "Separation failed: " +:+ exc_str e'
  | OtherException _ => True
  end.
Proof.
  rewrite separate_audio_unfold. cbv zeta.
  destruct (Path_mkdir _ _ _ _) as [[[]|e0] w'] eqn:Em.
  - pose proof (Path_mkdir_trace _ _ _ _ _ Em) as Et.
    destruct (spleeter_separate _ _ _ _ _) as [[e0|[]] files']; [|discriminate].
    intros [= <- <-]. split; [|eauto].
    eapply never_invoked_app;
      [simpl; rewrite Et; simpl; rewrite <- app_assoc; reflexivity|reflexivity].
  - pose proof (Path_mkdir_trace _ _ _ _ _ Em) as Et.
    apply Path_mkdir_Raise in Em as [e' ->].
    intros [= <- <-]. split; [|exact I].
    eapply never_invoked_app; [exact Et|reflexivity].
Qed.

Lemma keep_only_sound_Return input_file w2 sound_file w3 :
  keep_only_sound env input_file w2 = (Return sound_file, w3) →
  sound_file = str (sound_path input_file) ∧
  trace w3 = trace w2 ++ [Enter_keep_only_sound input_file;
                          Call_subprocess (ffmpeg_cmd input_file sound_file)].
Proof.
  rewrite keep_only_sound_unfold. cbv zeta.
  destruct (with_name _ _) as [q|e] eqn:Ew; [|discriminate].
  apply with_name_Return in Ew as ->.
  destruct (subprocess_run _ _ _) as [[e|rc] files']; [discriminate|].
  intros [= <- <-]. split; reflexivity.
Qed.

Lemma keep_only_sound_Raise input_file w2 e w3 :
  keep_only_sound env input_file w2 = (Raise e, w3) → ∃ e', e = OtherException e'.
Proof.
  rewrite keep_only_sound_unfold. cbv zeta.
  destruct (with_name _ _) as [q|e0] eqn:Ew.
  - destruct (subprocess_run _ _ _) as [[e0|rc] files']; [|discriminate].
    intros [= <- <-]. eauto.
  - intros [= <- <-]. eapply with_name_Raise, Ew.
Qed.

Lemma os_replace_Return src dst w3 w4 :
  os_replace src dst w3 = (Return tt, w4) →
  trace w4 = trace w3 ∧
  ∃ n, fs w3 !! src = Some n ∧ fs w4 = <[dst := n]> (delete src (fs w3)).
Proof.
  unfold os_replace.
  destruct (fs w3 !! src) as [[b| |]|]; [| | |discriminate];
    destruct (fs w3 !! dst) as [[b'| |]|]; try discriminate;
    intros [= <-]; simpl; eauto.
Qed.

Lemma os_replace_Raise src dst w3 e w4 :
  os_replace src dst w3 = (Raise e, w4) → ∃ e', e = OtherException e'.
Proof.
  unfold os_replace, OSError.
  destruct (fs w3 !! src) as [[b| |]|]; [| | |intros [= <- <-]; eauto];
    destruct (fs w3 !! dst) as [[b'| |]|]; try discriminate;
    intros [= <- <-]; eauto.
Qed.

End outcomes.

(** Start-up makes the two directories, and accepts them when they exist. *)
Example startup_makes_directories :
  startup demo.env {| fs := {[ "/etc/hostname" := File [Byte.x68; Byte.x0a] ]};
                      trace := [] |}
  = (Return tt, demo.w0)
  ∧ startup demo.env demo.w0 = (Return tt, demo.w0).
Proof. split; vm_compute; reflexivity. Qed.

(** ** The processing endpoint *)

Section endpoint.
Context (env : Env).
Import pathlib.

Lemma process_audio_accepted youtube_url file_name file_type :
  file_type ∈ accepted_file_types →
  process_audio env youtube_url file_name file_type
  = try_except (pipeline env youtube_url file_name file_type) on_exception.
Proof.
  intros H. unfold process_audio. rewrite bool_decide_true by assumption.
  reflexivity.
Qed.

Lemma process_audio_rejected youtube_url file_name file_type :
  file_type ∉ accepted_file_types →
  process_audio env youtube_url file_name file_type
  = ret (JSONResponse 400 (error_body "file_type must be 'vocals' or 'music'")).
Proof.
  intros H. unfold process_audio. rewrite bool_decide_false by assumption.
  reflexivity.
Qed.

End endpoint.

(** C1. A request to the processing endpoint whose [file_type] is not one of
    the accepted ones is answered with status 400 and a validation message in
    the body, and the fetcher is never invoked: the world, its trace
    included, is left as it was. *)
Theorem rejected_file_type_is_400
    env youtube_url file_name file_type (w : World) :
  file_type ∉ accepted_file_types →
  ∃ w', GET_process env youtube_url file_name file_type w
        = (json_response 400
             (error_body "file_type must be 'vocals' or 'music'"), w')
        ∧ never_invoked is_fetcher_event w w'
        ∧ w' = w.
Proof.
  intros H. exists w. unfold GET_process, serve.
  rewrite process_audio_rejected by assumption.
  repeat split. apply never_invoked_same. reflexivity.
Qed.

Lemma rejected_file_type_is_400_witness :
  ("accompaniment" ∉ accepted_file_types) ∧
  ∃ w', GET_process demo.env "https://video.example/watch?id=abc" "song1"
          "accompaniment" demo.w0
        = (json_response 400
             (error_body "file_type must be 'vocals' or 'music'"), w')
        ∧ never_invoked is_fetcher_event demo.w0 w'
        ∧ w' = demo.w0.
Proof.
  assert (H : "accompaniment" ∉ accepted_file_types)
    by (apply (bool_decide_unpack _); vm_compute; exact I).
  split; [exact H|].
  exact (rejected_file_type_is_400 demo.env _ _ _ demo.w0 H).
Defined.

(** C3, as the program has it.  When the downloader raises, the processing
    endpoint answers with status 400 and the message [Download failed: ...]
    carrying the downloader's own message, and the separator is never
    invoked.  When [download_audio] raises before it calls the downloader,
    the endpoint answers with status 500 and the message of that exception,
    and the separator is never invoked either. *)
Theorem failed_fetch env youtube_url file_name file_type (w : World) :
  file_type ∈ accepted_file_types →
  (∀ template e files',
     pathlib.with_suffix (DOWNLOAD_DIR env // file_name) "" = Return template →
     ydl_download env (ydl_opts (pathlib.str template)) youtube_url (fs w)
       = (inl e, files') →
     ∃ w', GET_process env youtube_url file_name file_type w
           = (json_response 400
                (error_body ("Download failed: " +:+ exc_str e)), w')
           ∧ never_invoked is_separator_event w w'
           ∧ fs w' = files')
  ∧ (∀ e,
       pathlib.with_suffix (DOWNLOAD_DIR env // file_name) ""
         = Raise (OtherException e) →
       ∃ w', GET_process env youtube_url file_name file_type w
             = (json_response 500 (error_body (exc_str e)), w')
             ∧ never_invoked is_separator_event w w'
             ∧ fs w' = fs w).
Proof.
  intros Hty. split.
  - intros template e files' Htpl Hydl. unfold GET_process, serve.
    rewrite process_audio_accepted by assumption.
    unfold try_except, pipeline, bind.
    rewrite download_audio_unfold, Htpl. cbv zeta. rewrite Hydl.
    eexists. split; [reflexivity|]. split; [|reflexivity].
    eapply never_invoked_app; reflexivity.
  - intros e Hraise. unfold GET_process, serve.
    rewrite process_audio_accepted by assumption.
    unfold try_except, pipeline, bind.
    rewrite download_audio_unfold, Hraise. cbv zeta.
    eexists. split; [reflexivity|]. split; [|reflexivity].
    eapply never_invoked_app; reflexivity.
Qed.

Lemma failed_fetch_witness :
  let template := pathlib.Path "/srv/app/Downloads/song1" in
  let e := mkPyError "DownloadError" "ERROR: unable to download webpage" in
  let e0 := mkPyError "ValueError" "PosixPath('/') has an empty name" in
  "vocals" ∈ accepted_file_types
  ∧ pathlib.with_suffix (DOWNLOAD_DIR demo.env // "song1") "" = Return template
  ∧ ydl_download demo.env (ydl_opts (pathlib.str template)) demo.url_unreachable
      (fs demo.w0) = (inl e, demo.fs0)
  ∧ pathlib.with_suffix (DOWNLOAD_DIR demo.env // "/") ""
    = Raise (OtherException e0)
  ∧ (∃ w', GET_process demo.env demo.url_unreachable "song1" "vocals" demo.w0
           = (json_response 400
                (error_body "Download failed: ERROR: unable to download webpage"),
              w')
           ∧ never_invoked is_separator_event demo.w0 w'
           ∧ fs w' = fs demo.w0)
  ∧ (∃ w', GET_process demo.env demo.url_ok "/" "vocals" demo.w0
           = (json_response 500 (error_body "PosixPath('/') has an empty name"),
              w')
           ∧ never_invoked is_separator_event demo.w0 w'
           ∧ fs w' = fs demo.w0).
Proof.
  intros template e e0.
  assert (H1 : "vocals" ∈ accepted_file_types)
    by (apply (bool_decide_unpack _); vm_compute; exact I).
  assert (H2 : pathlib.with_suffix (DOWNLOAD_DIR demo.env // "song1") ""
               = Return template) by (vm_compute; reflexivity).
  assert (H3 : ydl_download demo.env (ydl_opts (pathlib.str template))
                 demo.url_unreachable (fs demo.w0) = (inl e, demo.fs0))
    by (vm_compute; reflexivity).
  assert (H4 : pathlib.with_suffix (DOWNLOAD_DIR demo.env // "/") ""
               = Raise (OtherException e0)) by (vm_compute; reflexivity).
  repeat (split; [assumption|]). split.
  - exact (proj1 (failed_fetch demo.env demo.url_unreachable "song1" "vocals"
                    demo.w0 H1) template e demo.fs0 H2 H3).
  - exact (proj2 (failed_fetch demo.env demo.url_ok "/" "vocals" demo.w0 H1)
             e0 H4).
Defined.

(** C3, as the claim has it, fails when the fetch stage fails before the
    downloader is called: for the file name [/] the download path has no
    final component, [download_audio] raises a [ValueError], and the answer
    is a 500 with that message, not a 400 with [Download failed: ...]. *)
Lemma fetch_failure_before_download_is_500 :
  download_audio demo.env demo.url_ok "/" demo.w0
  = (Raise (ValueError "PosixPath('/') has an empty name"),
     logged demo.w0 [Enter_download_audio demo.url_ok "/"])
  ∧ (GET_process demo.env demo.url_ok "/" "vocals" demo.w0).1
    = json_response 500 (error_body "PosixPath('/') has an empty name")
  ∧ status (GET_process demo.env demo.url_ok "/" "vocals" demo.w0).1 ≠ 400.
Proof.
  split; [vm_compute; reflexivity|].
  split; [vm_compute; reflexivity|vm_compute; discriminate].
Qed.

(** C4. When the separation stage fails, the processing endpoint answers
    with status 500 and the message of the failure, and the silence trimmer
    is never invoked.  The stage fails in one of two ways, and the message
    is fixed in both: the separator raised, and the message is
    [Separation failed: ...] with the separator's own message; or the
    directory of the song could not be made, and the message is that of the
    exception of [mkdir]. *)
Theorem failed_separation_is_500
    env youtube_url file_name file_type (w : World) file_path w1 e w2 :
  file_type ∈ accepted_file_types →
  download_audio env youtube_url file_name w = (Return file_path, w1) →
  separate_audio env file_path w1 = (Raise e, w2) →
  never_invoked is_trimmer_event w w2
  ∧ ((∃ w1' e' files',
        Path_mkdir env (OUTPUT_DIR env // pathlib.stem (pathlib.Path file_path))
          true (logged w1 [Enter_separate_audio file_path]) = (Return tt, w1')
        ∧ spleeter_separate env "spleeter:2stems" file_path
            (pathlib.str (OUTPUT_DIR env)) (fs w1') = (inl e', files')
        ∧ e = HTTPException 500 ("Separation failed: " +:+ exc_str e')
        ∧ GET_process env youtube_url file_name file_type w
          = (json_response 500
               (error_body ("Separation failed: " +:+ exc_str e')), w2))
     ∨ (∃ e',
          Path_mkdir env (OUTPUT_DIR env // pathlib.stem (pathlib.Path file_path))
            true (logged w1 [Enter_separate_audio file_path])
            = (Raise (OtherException e'), w2)
          ∧ e = OtherException e'
          ∧ GET_process env youtube_url file_name file_type w
            = (json_response 500 (error_body (exc_str e')), w2))).
Proof.
  intros Hty Hdl Hsep.
  assert (Hnever : never_invoked is_trimmer_event w w2).
  { apply never_invoked_trans with w1.
    - apply download_audio_Return in Hdl as (_ & opts & Ht1).
      eapply never_invoked_app; [exact Ht1|reflexivity].
    - apply separate_audio_Raise in Hsep as [H _]. exact H. }
  assert (Hget : GET_process env youtube_url file_name file_type w
                 = (fastapi_send (on_exception e w2).1 (fs (on_exception e w2).2),
                    (on_exception e w2).2)).
  { unfold GET_process, serve. rewrite process_audio_accepted by assumption.
    unfold try_except, pipeline, bind. rewrite Hdl, Hsep.
    destruct (on_exception e w2). reflexivity. }
  split; [exact Hnever|].
  destruct (separate_audio_Raise_cases env _ _ _ _ Hsep)
    as [(w1' & e' & files' & Hm & Hs & -> & _)|(e' & Hm & ->)].
  - left. exists w1', e', files'. repeat split; assumption.
  - right. exists e'. repeat split; assumption.
Qed.

Lemma failed_separation_is_500_witness :
  let file_path := "/srv/app/Downloads/song1.mp3" in
  let e := HTTPException 500
             "Separation failed: cannot load /srv/app/Downloads/song1.mp3" in
  let w2 := (separate_audio demo.env file_path demo.w_private).2 in
  "music" ∈ accepted_file_types
  ∧ download_audio demo.env demo.url_private "song1" demo.w0
    = (Return file_path, demo.w_private)
  ∧ separate_audio demo.env file_path demo.w_private = (Raise e, w2)
  ∧ GET_process demo.env demo.url_private "song1" "music" demo.w0
    = (json_response 500
         (error_body "Separation failed: cannot load /srv/app/Downloads/song1.mp3"),
       w2)
  ∧ never_invoked is_trimmer_event demo.w0 w2.
Proof.
  intros file_path e w2.
  assert (H1 : "music" ∈ accepted_file_types)
    by (apply (bool_decide_unpack _); vm_compute; exact I).
  assert (H2 : download_audio demo.env demo.url_private "song1" demo.w0
               = (Return file_path, demo.w_private)) by (vm_compute; reflexivity).
  assert (H3 : separate_audio demo.env file_path demo.w_private = (Raise e, w2))
    by (vm_compute; reflexivity).
  repeat (split; [assumption|]).
  destruct (failed_separation_is_500 demo.env demo.url_private "song1" "music"
              demo.w0 file_path demo.w_private e w2 H1 H2 H3)
    as [Hnever [(w1' & e' & files' & _ & _ & He & Hget)|(e' & _ & He & _)]];
    [|discriminate He].
  assert (Hmsg : "Separation failed: " +:+ exc_str e'
                 = "Separation failed: cannot load /srv/app/Downloads/song1.mp3")
    by (unfold e in He; congruence).
  rewrite Hmsg in Hget. split; [exact Hget|exact Hnever].
Defined.

Lemma OUTPUT_DIR_tail env : pathlib.tail (OUTPUT_DIR env) ≠ [].
Proof.
  unfold OUTPUT_DIR, pathlib.truediv. simpl.
  destruct (pathlib.tail (BASE_DIR env)); discriminate.
Qed.

(** The stable path of a finished request lies directly in the output
    directory. *)
Lemma final_path_in_OUTPUT_DIR env file_name :
  pathlib.str (OUTPUT_DIR env
               // (pathlib.stem (pathlib.Path file_name) +:+ "_sound.wav"))
  = pathlib.str (OUTPUT_DIR env) +:+ "/"
      +:+ pathlib.stem (pathlib.Path file_name) +:+ "_sound.wav".
Proof.
  destruct (sound_name_valid file_name) as [Hk Hs].
  apply str_truediv_part; [apply OUTPUT_DIR_tail|assumption..].
Qed.

(** C2. When every stage of a processing request returns, the orchestrator
    has selected [vocals.wav] for the file type [vocals] and
    [accompaniment.wav] otherwise, has run the silence trimmer on that stem
    (and only once), has moved the trimmed file to the stable path
    [OUTPUT_DIR/<stem of file_name>_sound.wav], and answers 200 with the body
    [{"file": "/file?v=<that path>"}]. *)
Theorem process_success
    env youtube_url file_name file_type (w : World)
    file_path w1 out_dir w2 sound_file w3 w4 :
  let selected_file :=
    if String.eqb file_type "vocals" then os_path_join out_dir "vocals.wav"
    else os_path_join out_dir "accompaniment.wav" in
  let final_path :=
    pathlib.str (OUTPUT_DIR env
                 // (pathlib.stem (pathlib.Path file_name) +:+ "_sound.wav")) in
  file_type ∈ accepted_file_types →
  download_audio env youtube_url file_name w = (Return file_path, w1) →
  separate_audio env file_path w1 = (Return out_dir, w2) →
  keep_only_sound env selected_file w2 = (Return sound_file, w3) →
  os_replace sound_file final_path w3 = (Return tt, w4) →
  GET_process env youtube_url file_name file_type w
    = (json_response 200 (file_body ("/file?v=" +:+ final_path)), w4)
  ∧ final_path = pathlib.str (OUTPUT_DIR env) +:+ "/"
                   +:+ pathlib.stem (pathlib.Path file_name) +:+ "_sound.wav"
  ∧ out_dir = pathlib.str (OUTPUT_DIR env // pathlib.stem (pathlib.Path file_path))
  ∧ sound_file = pathlib.str (sound_path selected_file)
  ∧ (∃ n, fs w3 !! sound_file = Some n
          ∧ fs w4 = <[final_path := n]> (delete sound_file (fs w3)))
  ∧ (∃ opts, trace w4 = trace w ++
       [Enter_download_audio youtube_url file_name;
        Call_ydl opts youtube_url;
        Enter_separate_audio file_path;
        Call_spleeter "spleeter:2stems" file_path (pathlib.str (OUTPUT_DIR env));
        Enter_keep_only_sound selected_file;
        Call_subprocess (ffmpeg_cmd selected_file sound_file)]).
Proof.
  intros selected_file final_path Hty Hdl Hsep Htrim Hmove.
  split; [|split; [apply final_path_in_OUTPUT_DIR|]].
  2:{ split; [apply separate_audio_Return in Hsep as [H _]; exact H|].
      split; [apply keep_only_sound_Return in Htrim as [H _]; exact H|].
      split.
      - apply os_replace_Return in Hmove as [_ H]. exact H.
      - apply download_audio_Return in Hdl as (_ & opts & Ht1).
        apply separate_audio_Return in Hsep as (_ & Ht2).
        apply keep_only_sound_Return in Htrim as (_ & Ht3).
        apply os_replace_Return in Hmove as [Ht4 _].
        exists opts. rewrite Ht4, Ht3, Ht2, Ht1, <- !app_assoc. reflexivity. }
  - unfold GET_process, serve.
    rewrite process_audio_accepted by assumption.
    unfold try_except, pipeline, bind.
    rewrite Hdl, Hsep. fold selected_file. rewrite Htrim.
    fold final_path. rewrite Hmove. reflexivity.
Qed.

Lemma process_success_witness :
  let file_path := "/srv/app/Downloads/song1.mp3" in
  let out_dir := "/srv/app/output/song1" in
  let selected_file := "/srv/app/output/song1/vocals.wav" in
  let sound_file := "/srv/app/output/song1/vocals_sound.wav" in
  let final_path := "/srv/app/output/song1_sound.wav" in
  "vocals" ∈ accepted_file_types ∧
  download_audio demo.env demo.url_ok "song1" demo.w0
    = (Return file_path, demo.w_fetched) ∧
  separate_audio demo.env file_path demo.w_fetched
    = (Return out_dir, demo.w_separated) ∧
  keep_only_sound demo.env selected_file demo.w_separated
    = (Return sound_file, demo.w_trimmed) ∧
  os_replace sound_file final_path demo.w_trimmed = (Return tt, demo.w_final) ∧
  GET_process demo.env demo.url_ok "song1" "vocals" demo.w0
    = (json_response 200 (file_body "/file?v=/srv/app/output/song1_sound.wav"),
       demo.w_final).
Proof.
  intros file_path out_dir selected_file sound_file final_path.
  assert (H1 : "vocals" ∈ accepted_file_types)
    by (apply (bool_decide_unpack _); vm_compute; exact I).
  assert (H2 : download_audio demo.env demo.url_ok "song1" demo.w0
               = (Return file_path, demo.w_fetched)) by (vm_compute; reflexivity).
  assert (H3 : separate_audio demo.env file_path demo.w_fetched
               = (Return out_dir, demo.w_separated)) by (vm_compute; reflexivity).
  assert (H4 : keep_only_sound demo.env selected_file demo.w_separated
               = (Return sound_file, demo.w_trimmed)) by (vm_compute; reflexivity).
  assert (H5 : os_replace sound_file final_path demo.w_trimmed
               = (Return tt, demo.w_final)) by (vm_compute; reflexivity).
  repeat (split; [assumption|]).
  exact (proj1 (process_success demo.env demo.url_ok "song1" "vocals" demo.w0
                  file_path demo.w_fetched out_dir demo.w_separated
                  sound_file demo.w_trimmed demo.w_final H1 H2 H3 H4 H5)).
Defined.

(** ** Failures of the processing endpoint *)

(** Every way the pipeline ends: with the reference to the finished file,
    with one of the two [HTTPException]s the stages raise, or with some other
    exception. *)
Lemma pipeline_outcome env youtube_url file_name file_type (w : World) r w' :
  pipeline env youtube_url file_name file_type w = (r, w') →
  match r with
  | Return v => ∃ ref, v = Dict (file_body ref)
  | Raise (HTTPException status_code detail) =>
      status_code = 400 ∨ status_code = 500
  | Raise (OtherException _) => True
  end.
Proof.
  unfold pipeline, bind.
  destruct (download_audio _ _ _ _) as [[file_path|e] w1] eqn:E1.
  2:{ intros [= <- <-]. apply download_audio_Raise in E1 as (_ & _ & H).
      destruct e as [sc d|e]; [|exact I].
      destruct H as (-> & e' & ->). left. reflexivity. }
  destruct (separate_audio _ _ _) as [[out_dir|e] w2] eqn:E2.
  2:{ intros [= <- <-]. apply separate_audio_Raise in E2 as (_ & H).
      destruct e as [sc d|e]; [|exact I].
      destruct H as (-> & e' & ->). right. reflexivity. }
  destruct (keep_only_sound _ _ _) as [[sound_file|e] w3] eqn:E3.
  2:{ intros [= <- <-]. apply keep_only_sound_Raise in E3 as [e' ->]. exact I. }
  destruct (os_replace _ _ _) as [[[]|e] w4] eqn:E4.
  2:{ intros [= <- <-]. apply os_replace_Raise in E4 as [e' ->]. exact I. }
  intros [= <- <-]. eauto.
Qed.

(** A request whose [file_type] is accepted and in which something failed
    is answered by one of the two [except] clauses. *)
Lemma failed_accepted env youtube_url file_name file_type (w : World) e w' :
  file_type ∈ accepted_file_types →
  pipeline env youtube_url file_name file_type w = (Raise e, w') →
  GET_process env youtube_url file_name file_type w
  = (match e with
     | HTTPException status_code detail =>
         json_response status_code (error_body detail)
     | OtherException e' => json_response 500 (error_body (exc_str e'))
     end, w').
Proof.
  intros Hty Hp. unfold GET_process, serve.
  rewrite process_audio_accepted by assumption.
  unfold try_except. rewrite Hp. destruct e; reflexivity.
Qed.

(** The step at which the pipeline raised. *)
Lemma pipeline_Raise env youtube_url file_name file_type (w : World) e w' :
  file_type ∈ accepted_file_types →
  pipeline env youtube_url file_name file_type w = (Raise e, w') →
  ∃ f, failed env youtube_url file_name file_type w f w'
       ∧ e = match f with
             | ValidationError => e
             | RetrievalError _ | SeparationError _ =>
                 HTTPException (failure_status f) (failure_message f)
             | UnknownError e' => OtherException e'
             end
       ∧ f ≠ ValidationError.
Proof.
  intros Hty. unfold pipeline, bind.
  destruct (download_audio _ _ _ _) as [[file_path|e1] w1] eqn:E1.
  2:{ intros [= <- <-].
      destruct (download_audio_Raise_cases env _ _ _ _ _ E1)
        as [(template & e' & files' & Ht & Hy & -> & ->)|(e' & Ht & -> & ->)].
      - exists (RetrievalError e'). split; [|split; [reflexivity|discriminate]].
        eapply failed_retrieval; eassumption.
      - exists (UnknownError e'). split; [|split; [reflexivity|discriminate]].
        apply failed_template; assumption. }
  destruct (separate_audio _ _ _) as [[out_dir|e2] w2] eqn:E2.
  2:{ intros [= <- <-].
      destruct (separate_audio_Raise_cases env _ _ _ _ E2)
        as [(w1' & e' & files' & Hm & Hs & -> & ->)|(e' & Hm & ->)].
      - exists (SeparationError e'). split; [|split; [reflexivity|discriminate]].
        eapply failed_separation; eassumption.
      - exists (UnknownError e'). split; [|split; [reflexivity|discriminate]].
        eapply failed_mkdir; eassumption. }
  destruct (keep_only_sound _ _ _) as [[sound_file|e3] w3] eqn:E3.
  2:{ intros [= <- <-]. destruct (keep_only_sound_Raise env _ _ _ _ E3) as [e' ->].
      exists (UnknownError e'). split; [|split; [reflexivity|discriminate]].
      eapply failed_trimmer; eassumption. }
  destruct (os_replace _ _ _) as [[[]|e4] w4] eqn:E4; [discriminate|].
  intros [= <- <-]. destruct (os_replace_Raise _ _ _ _ _ E4) as [e' ->].
  exists (UnknownError e'). split; [|split; [reflexivity|discriminate]].
  eapply failed_move; eassumption.
Qed.

(** A failure is what the pipeline made of it. *)
Lemma failed_pipeline env youtube_url file_name file_type (w : World) f w' :
  failed env youtube_url file_name file_type w f w' →
  match f with
  | ValidationError => (file_type ∉ accepted_file_types) ∧ w' = w
  | RetrievalError _ | SeparationError _ =>
      file_type ∈ accepted_file_types
      ∧ pipeline env youtube_url file_name file_type w
        = (Raise (HTTPException (failure_status f) (failure_message f)), w')
  | UnknownError e =>
      file_type ∈ accepted_file_types
      ∧ pipeline env youtube_url file_name file_type w
        = (Raise (OtherException e), w')
  end.
Proof.
  intros [Hty|template e files' Hty Ht Hy|file_path w1 w1' e files' Hty Hd Hm Hs
          |e Hty Ht|file_path w1 e w2 Hty Hd Hm
          |file_path w1 out_dir w2 e w3 Hty Hd Hs Hk
          |file_path w1 out_dir w2 sound_file w3 e w4 Hty Hd Hs Hk Hr].
  - split; [assumption|reflexivity].
  - split; [assumption|]. unfold pipeline, bind.
    rewrite download_audio_unfold, Ht. cbv zeta. rewrite Hy. reflexivity.
  - split; [assumption|]. unfold pipeline, bind.
    rewrite Hd, separate_audio_unfold. cbv zeta. rewrite Hm, Hs. reflexivity.
  - split; [assumption|]. unfold pipeline, bind.
    rewrite download_audio_unfold, Ht. reflexivity.
  - split; [assumption|]. unfold pipeline, bind.
    rewrite Hd, separate_audio_unfold. cbv zeta. rewrite Hm. reflexivity.
  - split; [assumption|]. unfold pipeline, bind. rewrite Hd, Hs, Hk. reflexivity.
  - split; [assumption|]. unfold pipeline, bind. rewrite Hd, Hs, Hk, Hr.
    reflexivity.
Qed.

(** ** The file endpoint *)

Lemma GET_file_unfold env v (w : World) :
  GET_file env v w =
  (match fs w !! v with
   | None => json_response 404 (detail_body "File not found")
   | Some (File b) =>
       {| status := 200; content_type := "audio/wav"; payload := BodyBytes b |}
   | Some _ => internal_server_error
   end, w).
Proof.
  unfold GET_file, serve, get_file, bind, os_path_exists.
  destruct (fs w !! v) as [[b| |]|] eqn:E; simpl; rewrite ?E; reflexivity.
Qed.

Lemma error_body_has_error_field msg : has_error_field (BodyJson (error_body msg)).
Proof. exists [("error", JString msg)], msg. split; [reflexivity|set_solver]. Qed.

(** C5, as the program has it.  Whatever fails in a request to the
    processing endpoint, the answer is a JSON object whose [error] field
    carries the message, and the status follows the kind of failure: 400
    for a rejected file type and for a downloader that raised, 500 for a
    separator that raised and for any other exception; and every answer
    other than 200 comes from such a failure.  A request to the file
    endpoint for a path where nothing exists is answered with status 404 and
    the framework's own body [{"detail": "File not found"}]. *)
Theorem failing_requests
    env youtube_url file_name file_type v (w : World) :
  (∀ f w',
     failed env youtube_url file_name file_type w f w' →
     GET_process env youtube_url file_name file_type w
     = (json_response (failure_status f) (error_body (failure_message f)), w')
     ∧ has_error_field (BodyJson (error_body (failure_message f))))
  ∧ (status (GET_process env youtube_url file_name file_type w).1 ≠ 200 →
     ∃ f, failed env youtube_url file_name file_type w f
            (GET_process env youtube_url file_name file_type w).2)
  ∧ (fs w !! v = None →
     GET_file env v w = (json_response 404 (detail_body "File not found"), w)).
Proof.
  split; [|split].
  - intros f w' Hf. split; [|apply error_body_has_error_field].
    apply failed_pipeline in Hf. destruct f as [|e|e|e].
    + destruct Hf as [Hty ->]. unfold GET_process, serve.
      rewrite process_audio_rejected by assumption. reflexivity.
    + destruct Hf as [Hty Hp]. rewrite (failed_accepted _ _ _ _ _ _ _ Hty Hp).
      reflexivity.
    + destruct Hf as [Hty Hp]. rewrite (failed_accepted _ _ _ _ _ _ _ Hty Hp).
      reflexivity.
    + destruct Hf as [Hty Hp]. rewrite (failed_accepted _ _ _ _ _ _ _ Hty Hp).
      reflexivity.
  - destruct (decide (file_type ∈ accepted_file_types)) as [Hty|Hty].
    + destruct (pipeline env youtube_url file_name file_type w)
        as [[v0|e] w1] eqn:E.
      * intros H. exfalso. apply H. unfold GET_process, serve.
        rewrite process_audio_accepted by assumption. unfold try_except.
        rewrite E. apply pipeline_outcome in E as [ref ->]. reflexivity.
      * intros _. rewrite (failed_accepted _ _ _ _ _ _ _ Hty E). cbn [snd].
        destruct (pipeline_Raise _ _ _ _ _ _ _ Hty E) as (f & Hf & _).
        exists f. exact Hf.
    + intros _. exists ValidationError. unfold GET_process, serve.
      rewrite process_audio_rejected by assumption. cbn [snd ret].
      apply failed_validation. assumption.
  - intros H. rewrite GET_file_unfold, H. reflexivity.
Qed.

Lemma failing_requests_witness :
  let e := mkPyError "DownloadError" "ERROR: unable to download webpage" in
  let w' := {| fs := demo.fs0;
               trace := [Enter_download_audio demo.url_unreachable "song1";
                         Call_ydl (ydl_opts "/srv/app/Downloads/song1")
                           demo.url_unreachable] |} in
  failed demo.env demo.url_unreachable "song1" "vocals" demo.w0
    (RetrievalError e) w'
  ∧ failed demo.env demo.url_ok "song1" "both" demo.w0 ValidationError demo.w0
  ∧ status (GET_process demo.env demo.url_unreachable "song1" "vocals" demo.w0).1
    ≠ 200
  ∧ fs demo.w0 !! "/srv/app/output/missing.wav" = None
  ∧ GET_process demo.env demo.url_unreachable "song1" "vocals" demo.w0
    = (json_response 400
         (error_body "Download failed: ERROR: unable to download webpage"), w')
  ∧ GET_process demo.env demo.url_ok "song1" "both" demo.w0
    = (json_response 400 (error_body "file_type must be 'vocals' or 'music'"),
       demo.w0)
  ∧ (∃ f, failed demo.env demo.url_unreachable "song1" "vocals" demo.w0 f
            (GET_process demo.env demo.url_unreachable "song1" "vocals"
               demo.w0).2)
  ∧ GET_file demo.env "/srv/app/output/missing.wav" demo.w0
    = (json_response 404 (detail_body "File not found"), demo.w0).
Proof.
  intros e w'.
  assert (H1 : failed demo.env demo.url_unreachable "song1" "vocals" demo.w0
                 (RetrievalError e) w').
  { apply (failed_retrieval demo.env demo.url_unreachable "song1" "vocals"
             demo.w0 (pathlib.Path "/srv/app/Downloads/song1") e demo.fs0).
    - apply (bool_decide_unpack _). vm_compute. exact I.
    - vm_compute. reflexivity.
    - vm_compute. reflexivity. }
  assert (H2 : failed demo.env demo.url_ok "song1" "both" demo.w0
                 ValidationError demo.w0).
  { apply failed_validation. apply (bool_decide_unpack _). vm_compute. exact I. }
  assert (H3 : status (GET_process demo.env demo.url_unreachable "song1" "vocals"
                         demo.w0).1 ≠ 200) by (vm_compute; discriminate).
  assert (H4 : fs demo.w0 !! "/srv/app/output/missing.wav" = None)
    by (vm_compute; reflexivity).
  pose proof (failing_requests demo.env demo.url_unreachable "song1" "vocals"
                "/srv/app/output/missing.wav" demo.w0) as (Hp & Hc & Hf).
  pose proof (failing_requests demo.env demo.url_ok "song1" "both"
                "/srv/app/output/missing.wav" demo.w0) as (Hp' & _ & _).
  split; [exact H1|]. split; [exact H2|]. split; [exact H3|]. split; [exact H4|].
  split; [exact (proj1 (Hp _ _ H1))|]. split; [exact (proj1 (Hp' _ _ H2))|].
  split; [exact (Hc H3)|exact (Hf H4)].
Defined.

(** C5, as the claim has it, fails on the file endpoint: the body of its 404
    has a [detail] field and no [error] field. *)
Lemma file_not_found_has_no_error_field :
  let resp := (GET_file demo.env "/srv/app/output/missing.wav" demo.w0).1 in
  status resp = 404 ∧ ¬ has_error_field (payload resp).
Proof.
  rewrite GET_file_unfold. vm_compute fst. split; [reflexivity|].
  intros (fields & msg & Hb & Hin). simpl in Hb. unfold detail_body in Hb.
  injection Hb as <-.
  apply list_elem_of_In in Hin. destruct Hin as [Hin|[]]. discriminate.
Qed.

(** C6, at a directory.  The reference names the output directory, which the
    program itself creates when it starts: the existence check of [get_file]
    passes, a [FileResponse] is returned for a path that is no regular file,
    and the client receives a server error (500), neither a 404 nor the bytes
    of a file. *)
Theorem file_endpoint_on_directory :
  fs demo.w0 !! "/srv/app/output" = Some Dir
  ∧ get_file "/srv/app/output" demo.w0
    = (Return (FileResponse "/srv/app/output" "audio/wav"), demo.w0)
  ∧ GET_file demo.env "/srv/app/output" demo.w0
    = (internal_server_error, demo.w0)
  ∧ status internal_server_error = 500.
Proof. repeat split; vm_compute; reflexivity. Qed.

(** C10. The file endpoint puts no restriction on the reference: whatever
    string names a regular file, anywhere in the file system, the endpoint
    answers 200 with the bytes of that file and the media type
    [audio/wav]. *)
Theorem file_endpoint_serves_any_file env v (w : World) b :
  fs w !! v = Some (File b) →
  get_file v w = (Return (FileResponse v "audio/wav"), w)
  ∧ GET_file env v w
    = ({| status := 200; content_type := "audio/wav"; payload := BodyBytes b |}, w).
Proof.
  intros H. split; [|rewrite GET_file_unfold, H; reflexivity].
  unfold get_file, bind, os_path_exists.
  rewrite bool_decide_true by (rewrite H; eauto). reflexivity.
Qed.

Lemma file_endpoint_serves_any_file_witness :
  fs demo.w0 !! "/etc/hostname" = Some (File [Byte.x68; Byte.x0a])
  ∧ get_file "/etc/hostname" demo.w0
    = (Return (FileResponse "/etc/hostname" "audio/wav"), demo.w0)
  ∧ GET_file demo.env "/etc/hostname" demo.w0
    = ({| status := 200; content_type := "audio/wav";
          payload := BodyBytes [Byte.x68; Byte.x0a] |}, demo.w0).
Proof.
  assert (H : fs demo.w0 !! "/etc/hostname" = Some (File [Byte.x68; Byte.x0a]))
    by (vm_compute; reflexivity).
  split; [exact H|].
  exact (file_endpoint_serves_any_file demo.env "/etc/hostname" demo.w0 _ H).
Defined.

(** ** The fetcher *)

(** For a plain file name (one component, no slash) the returned path is the
    download directory, a slash, the name and [.mp3]. *)
Lemma download_path_plain_name env file_name :
  pathlib.keep_part file_name = true →
  pystr.contains_char pathlib.sep file_name = false →
  pathlib.str (DOWNLOAD_DIR env // file_name) +:+ ".mp3"
  = pathlib.str (DOWNLOAD_DIR env) +:+ "/" +:+ file_name +:+ ".mp3".
Proof.
  intros Hk Hs. rewrite str_truediv_part, !append_assoc; try assumption; [reflexivity|].
  unfold DOWNLOAD_DIR, pathlib.truediv. simpl.
  destruct (pathlib.tail (BASE_DIR env)); discriminate.
Qed.

(** C9. Whenever the downloader returns without raising, [download_audio]
    returns the string [DOWNLOAD_DIR/<file_name>.mp3] (the slash is the join
    of [pathlib]), whatever the downloader left in the file system: nothing
    is looked up at that path.
    The downloader is told to ignore errors, and there are runs in which the
    returned path names no file although no exception was raised. *)
Theorem download_audio_returns_unchecked
    env youtube_url file_name (w : World) template files' :
  pathlib.with_suffix (DOWNLOAD_DIR env // file_name) "" = Return template →
  ydl_download env (ydl_opts (pathlib.str template)) youtube_url (fs w)
    = (inr tt, files') →
  download_audio env youtube_url file_name w
    = (Return (pathlib.str (DOWNLOAD_DIR env // file_name) +:+ ".mp3"),
       {| fs := files';
          trace := trace w ++ [Enter_download_audio youtube_url file_name;
                               Call_ydl (ydl_opts (pathlib.str template))
                                 youtube_url] |})
  ∧ yt_dlp.ignoreerrors (ydl_opts (pathlib.str template)) = true
  ∧ ∃ env0 url0 name0 (w0 : World) p w',
      download_audio env0 url0 name0 w0 = (Return p, w') ∧ fs w' !! p = None.
Proof.
  intros Htpl Hydl. split; [|split; [reflexivity|]].
  - rewrite download_audio_unfold, Htpl. cbv zeta. rewrite Hydl. reflexivity.
  - exists demo.env, demo.url_private, "song1", demo.w0.
    eexists _, _. split; [vm_compute; reflexivity|]. vm_compute. reflexivity.
Qed.

Lemma download_audio_returns_unchecked_witness :
  let template := pathlib.Path "/srv/app/Downloads/song1" in
  pathlib.with_suffix (DOWNLOAD_DIR demo.env // "song1") "" = Return template
  ∧ ydl_download demo.env (ydl_opts (pathlib.str template)) demo.url_private
      (fs demo.w0) = (inr tt, demo.fs0)
  ∧ download_audio demo.env demo.url_private "song1" demo.w0
    = (Return "/srv/app/Downloads/song1.mp3", demo.w_private)
  ∧ fs demo.w_private !! "/srv/app/Downloads/song1.mp3" = None.
Proof.
  intros template.
  assert (H1 : pathlib.with_suffix (DOWNLOAD_DIR demo.env // "song1") ""
               = Return template) by (vm_compute; reflexivity).
  assert (H2 : ydl_download demo.env (ydl_opts (pathlib.str template))
                 demo.url_private (fs demo.w0) = (inr tt, demo.fs0))
    by (vm_compute; reflexivity).
  split; [exact H1|]. split; [exact H2|].
  split; [|vm_compute; reflexivity].
  exact (proj1 (download_audio_returns_unchecked demo.env demo.url_private "song1"
                  demo.w0 template demo.fs0 H1 H2)).
Defined.

(** ** The silence trimmer *)

(** What [keep_only_sound] does on a path with a final component: one run of
    ffmpeg, whose outcome is its own. *)
Lemma keep_only_sound_run env input_file (w : World) r files' :
  pathlib.name (pathlib.Path input_file) ≠ "" →
  subprocess_run env
    (ffmpeg_cmd input_file (pathlib.str (sound_path input_file))) (fs w)
    = (r, files') →
  keep_only_sound env input_file w
  = (match r with
     | inr _ => Return (pathlib.str (sound_path input_file))
     | inl e => Raise (OtherException e)
     end,
     {| fs := files';
        trace := trace w ++
          [Enter_keep_only_sound input_file;
           Call_subprocess
             (ffmpeg_cmd input_file (pathlib.str (sound_path input_file)))] |}).
Proof.
  intros Hname Hrun.
  rewrite keep_only_sound_unfold, with_name_sound by assumption.
  cbv zeta. rewrite Hrun. destruct r; reflexivity.
Qed.

Lemma keep_only_sound_named env input_file (w : World) returncode files' :
  pathlib.name (pathlib.Path input_file) ≠ "" →
  subprocess_run env
    (ffmpeg_cmd input_file (pathlib.str (sound_path input_file))) (fs w)
    = (inr returncode, files') →
  keep_only_sound env input_file w
  = (Return (pathlib.str (sound_path input_file)),
     {| fs := files';
        trace := trace w ++
          [Enter_keep_only_sound input_file;
           Call_subprocess
             (ffmpeg_cmd input_file (pathlib.str (sound_path input_file)))] |}).
Proof. intros Hname Hrun. apply (keep_only_sound_run _ _ _ _ _ Hname Hrun). Qed.




(** C8, as the program has it.  Every path [process_audio] passes has a
    final component, and for such an input [keep_only_sound] returns the
    derived output path whenever the filter process has run, whatever its
    return code and whether or not it left a file there: a failed run is
    swallowed.  What is not swallowed is a filter that cannot be started:
    the exception of [subprocess.run] leaves [keep_only_sound].  (Called on a
    path without a final component it raises a [ValueError] before anything
    is run.) *)
Theorem trimmer_ignores_exit_status env input_file (w : World) :
  let output_file := pathlib.str (sound_path input_file) in
  let cmd := ffmpeg_cmd input_file output_file in
  let after files' :=
    {| fs := files';
       trace := trace w ++ [Enter_keep_only_sound input_file;
                            Call_subprocess cmd] |} in
  (pathlib.name (pathlib.Path input_file) ≠ "" →
   (∀ returncode files',
      subprocess_run env cmd (fs w) = (inr returncode, files') →
      keep_only_sound env input_file w = (Return output_file, after files'))
   ∧ (∀ e files',
        subprocess_run env cmd (fs w) = (inl e, files') →
        keep_only_sound env input_file w
        = (Raise (OtherException e), after files')))
  ∧ (∀ out_dir,
       pathlib.name (pathlib.Path (os_path_join out_dir "vocals.wav")) ≠ ""
       ∧ pathlib.name (pathlib.Path (os_path_join out_dir "accompaniment.wav"))
         ≠ "")
  ∧ (pathlib.name (pathlib.Path input_file) = "" →
     keep_only_sound env input_file w
     = (Raise (ValueError (pathlib.repr (pathlib.Path input_file)
                           +:+ " has an empty name")),
        logged w [Enter_keep_only_sound input_file])).
Proof.
  intros output_file cmd after. split; [|split].
  - intros Hname. split.
    + intros returncode files' Hrun.
      apply (keep_only_sound_run _ _ _ _ _ Hname Hrun).
    + intros e files' Hrun.
      apply (keep_only_sound_run _ _ _ _ _ Hname Hrun).
  - intros out_dir. destruct (selected_file_named out_dir) as [-> ->].
    split; discriminate.
  - intros Hname. rewrite keep_only_sound_unfold, with_name_no_name by assumption.
    reflexivity.
Qed.

Lemma trimmer_ignores_exit_status_witness :
  let input_file := "/srv/app/output/nothing/vocals.wav" in
  let output_file := "/srv/app/output/nothing/vocals_sound.wav" in
  let e := mkPyError "FileNotFoundError"
             "[Errno 2] No such file or directory: 'ffmpeg'" in
  pathlib.name (pathlib.Path input_file) ≠ ""
  ∧ subprocess_run demo.env (ffmpeg_cmd input_file output_file) (fs demo.w0)
    = (inr 1, demo.fs0)
  ∧ subprocess_run demo_filter.env_missing (ffmpeg_cmd input_file output_file)
      (fs demo.w0) = (inl e, demo.fs0)
  ∧ demo.fs0 !! output_file = None
  ∧ pathlib.name (pathlib.Path "/") = ""
  ∧ (keep_only_sound demo.env input_file demo.w0).1 = Return output_file
  ∧ (keep_only_sound demo_filter.env_missing input_file demo.w0).1
    = Raise (OtherException e)
  ∧ (keep_only_sound demo.env "/" demo.w0).1
    = Raise (ValueError "PosixPath('/') has an empty name").
Proof.
  intros input_file output_file e.
  assert (H1 : pathlib.name (pathlib.Path input_file) ≠ "")
    by (vm_compute; discriminate).
  assert (H2 : subprocess_run demo.env
                 (ffmpeg_cmd input_file (pathlib.str (sound_path input_file)))
                 (fs demo.w0) = (inr 1, demo.fs0))
    by (vm_compute; reflexivity).
  assert (H3 : subprocess_run demo_filter.env_missing
                 (ffmpeg_cmd input_file (pathlib.str (sound_path input_file)))
                 (fs demo.w0) = (inl e, demo.fs0))
    by (vm_compute; reflexivity).
  assert (H4 : pathlib.name (pathlib.Path "/") = "") by (vm_compute; reflexivity).
  split; [exact H1|]. split; [exact H2|]. split; [exact H3|].
  split; [vm_compute; reflexivity|]. split; [exact H4|].
  split; [|split].
  - rewrite (proj1 (proj1 (trimmer_ignores_exit_status demo.env input_file demo.w0)
                      H1) 1 demo.fs0 H2).
    reflexivity.
  - rewrite (proj2 (proj1 (trimmer_ignores_exit_status demo_filter.env_missing
                             input_file demo.w0) H1) e demo.fs0 H3).
    reflexivity.
  - rewrite (proj2 (proj2 (trimmer_ignores_exit_status demo.env "/" demo.w0)) H4).
    reflexivity.
Defined.

(** C8, as the claim has it, fails where ffmpeg cannot be started: the
    request for the vocals of [song1] hands [vocals.wav] to
    [keep_only_sound], which raises the [FileNotFoundError] of
    [subprocess.run]; the processing endpoint answers 500. *)
Lemma trimmer_raises_on_failed_launch :
  let input_file := os_path_join "/srv/app/output/song1" "vocals.wav" in
  (keep_only_sound demo_filter.env_missing input_file demo.w_separated).1
  = Raise (OtherException
             (mkPyError "FileNotFoundError"
                "[Errno 2] No such file or directory: 'ffmpeg'"))
  ∧ (GET_process demo_filter.env_missing demo.url_ok "song1" "vocals" demo.w0).1
    = json_response 500
        (error_body "[Errno 2] No such file or directory: 'ffmpeg'").
Proof. split; vm_compute; reflexivity. Qed.

(** * Further properties of the program *)

(** ** More on strings *)

Section more_string_facts.
Import pystr.

Lemma append_inv_r s t u : s +:+ u = t +:+ u → s = t.
Proof.
  revert t. induction s as [|a s IH]; intros [|b t] H.
  - reflexivity.
  - apply (f_equal String.length) in H.
    rewrite append_empty_l, length_append in H. simpl in H. lia.
  - apply (f_equal String.length) in H.
    rewrite append_empty_l, length_append in H. simpl in H. lia.
  - rewrite !append_cons in H. injection H as -> H. f_equal. auto.
Qed.

Lemma endswith_char_append c s t :
  t ≠ "" → endswith_char c (s +:+ t) = endswith_char c t.
Proof.
  intros Ht. induction s as [|a s IH]; [reflexivity|].
  rewrite append_cons. simpl. rewrite IH.
  destruct (s +:+ t) eqn:E; [|reflexivity].
  apply (f_equal String.length) in E. rewrite length_append in E.
  destruct t; [congruence|]. simpl in E. lia.
Qed.

Lemma endswith_char_contains c s :
  contains_char c s = false → endswith_char c s = false.
Proof.
  induction s as [|a s IH]; [reflexivity|]. simpl.
  intros [H1 H2]%orb_false_iff. destruct s; [exact H1|auto].
Qed.

Lemma contains_char_true_ne c s t :
  contains_char c s = true → contains_char c t = false → s ≠ t.
Proof. intros H1 H2 ->. congruence. Qed.

(** The last occurrence of [c] in [s ++ c ++ t], when [t] has none. *)
Lemma rfind_append c s t :
  contains_char c t = false → rfind c (s +:+ String c t) = len s.
Proof.
  intros Ht. unfold len.
  assert (H0 : rfind c (String c t) = 0).
  { simpl. assert (rfind c t = -1) as ->.
    { clear -Ht. induction t as [|a t IH]; [reflexivity|]. simpl in *.
      apply orb_false_iff in Ht as [H1 H2]. rewrite (IH H2), H1. reflexivity. }
    simpl. rewrite Ascii.eqb_refl. reflexivity. }
  induction s as [|a s IH]; [exact H0|].
  rewrite append_cons. cbn [rfind]. rewrite IH.
  destruct (0 <=? Z.of_nat (String.length s)) eqn:E; [simpl; lia|].
  apply Z.leb_gt in E. lia.
Qed.

Lemma substring_append_prefix s t :
  String.substring 0 (String.length s) (s +:+ t) = s.
Proof.
  induction s as [|a s IH]; [destruct t; reflexivity|].
  rewrite append_cons. simpl. rewrite IH. reflexivity.
Qed.

Lemma length_substring n m s :
  (n + m ≤ String.length s)%nat → String.length (String.substring n m s) = m.
Proof.
  revert n m. induction s as [|a s IH]; intros [|n] [|m] H; simpl in *;
    try reflexivity; try lia.
  - rewrite (IH 0%nat m) by lia. reflexivity.
  - apply IH. lia.
  - apply IH. lia.
Qed.

End more_string_facts.

Section more_path_facts.
Import pystr pathlib.

Lemma Path_root_relative s : startswith_char sep s = false → root (Path s) = "".
Proof.
  unfold Path, splitroot. destruct s as [|a r1]; [reflexivity|]. simpl.
  intros ->. reflexivity.
Qed.


Lemma truediv_relative p key :
  startswith_char sep key = false →
  p // key = {| root := root p; tail := tail p ++ tail (Path key) |}.
Proof. intros H. unfold truediv. rewrite (Path_root_relative _ H). reflexivity. Qed.


Lemma normal_truediv p key : normal p → normal (p // key).
Proof.
  intros [Hr Hall]. unfold truediv.
  destruct (String.eqb (root (Path key)) ""); [|apply Path_normal].
  split; [exact Hr|]. simpl. apply Forall_app. split; [exact Hall|].
  apply Path_normal.
Qed.

(** The last component of a path in normal form is not empty. *)
Lemma normal_name p : normal p → tail p ≠ [] → name p ≠ "".
Proof.
  intros [_ Hall] Hne. unfold name.
  destruct (tail p) as [|x l] using rev_ind; [congruence|].
  rewrite last_snoc. simpl.
  apply Forall_app in Hall as [_ Hx]. inversion Hx as [|? ? [Hk _]]; subst.
  apply keep_part_true in Hk as [Hk1 _]. exact Hk1.
Qed.

Lemma name_tail p : name p ≠ "" → tail p ≠ [].
Proof. unfold name. destruct (tail p); [simpl; congruence|discriminate]. Qed.

(** Printing is injective on normal forms. *)
Lemma str_inj p q : normal p → normal q → str p = str q → p = q.
Proof.
  intros Hp Hq E. rewrite <- (Path_str p Hp), <- (Path_str q Hq), E. reflexivity.
Qed.

Lemma concat_last_append c l a b :
  String.concat c (l ++ [a +:+ b]) = String.concat c (l ++ [a]) +:+ b.
Proof.
  destruct l as [|x l]; [reflexivity|].
  rewrite !concat_snoc by discriminate. rewrite !append_assoc. reflexivity.
Qed.

Lemma str_last_append r l a b :
  str {| root := r; tail := l ++ [a +:+ b] |}
  = str {| root := r; tail := l ++ [a] |} +:+ b.
Proof.
  rewrite !str_components by (simpl; destruct l; discriminate). simpl.
  rewrite concat_last_append, append_assoc. reflexivity.
Qed.

(** [with_suffix('')] replaces the name by the stem. *)
Lemma with_suffix_empty p :
  name p ≠ "" →
  with_suffix p ""
  = Return {| root := root p; tail := removelast (tail p) ++ [stem p] |}.
Proof.
  intros Hne. unfold with_suffix. simpl.
  apply String.eqb_neq in Hne. rewrite Hne. do 4 f_equal.
  unfold suffix, stem. destruct (has_suffix (name p)) eqn:Eh.
  - unfold has_suffix in Eh. apply andb_true_iff in Eh as [E1 E2].
    apply Z.ltb_lt in E1, E2. unfold len in *.
    assert (Hlen : String.length (slice_from (rfind "." (name p)) (name p))
                   = (String.length (name p) - Z.to_nat (rfind "." (name p)))%nat)
      by (unfold slice_from; apply length_substring; lia).
    destruct (String.eqb (slice_from (rfind "." (name p)) (name p)) "") eqn:E3.
    + apply String.eqb_eq in E3. rewrite E3 in Hlen. simpl in Hlen. lia.
    + rewrite append_empty_r, Hlen. f_equal. lia.
  - simpl. apply append_empty_r.
Qed.

(** The stem of [nm.ext] is [nm], for an extension without a dot. *)
Lemma stem_append_ext r l nm ext :
  nm ≠ "" → ext ≠ "" → contains_char "." ext = false →
  stem {| root := r; tail := l ++ [nm +:+ String "." ext] |} = nm.
Proof.
  intros Hnm Hext Hdot. unfold stem. rewrite name_snoc.
  unfold has_suffix. rewrite rfind_append by assumption.
  unfold len. rewrite length_append. simpl.
  assert (0 < Z.of_nat (String.length nm)) by (destruct nm; [congruence|simpl; lia]).
  assert (0 < Z.of_nat (String.length ext)) by (destruct ext; [congruence|simpl; lia]).
  replace (0 <? Z.of_nat (String.length nm)) with true by (symmetry; apply Z.ltb_lt; lia).
  replace (Z.of_nat (String.length nm)
           <? Z.of_nat (String.length nm + S (String.length ext)) - 1)
    with true by (symmetry; apply Z.ltb_lt; lia).
  simpl. unfold slice_to. rewrite Nat2Z.id. apply substring_append_prefix.
Qed.

(** A printed path with components does not end with a slash, and is not
    empty. *)
Lemma str_no_trailing_sep p :
  normal p → tail p ≠ [] →
  str p ≠ "" ∧ endswith_char sep (str p) = false.
Proof.
  intros Hn Hne. pose proof (normal_name p Hn Hne) as Hname.
  pose proof (normal_name_no_sep p Hn) as Hsep.
  rewrite str_components by assumption.
  rewrite (tail_snoc p Hname).
  assert (E : ∃ x, root p +:+ String.concat "/" (removelast (tail p) ++ [name p])
                   = x +:+ name p).
  { destruct (removelast (tail p)) as [|y l] eqn:El.
    - exists (root p). reflexivity.
    - rewrite concat_snoc by discriminate.
      exists (root p +:+ String.concat "/" (y :: l) +:+ "/").
      rewrite !append_assoc. reflexivity. }
  destruct E as [x ->]. split.
  - intros E. apply (f_equal String.length) in E. rewrite length_append in E.
    destruct (name p); [congruence|]. simpl in E. lia.
  - rewrite endswith_char_append by assumption.
    apply endswith_char_contains, Hsep.
Qed.

Lemma os_path_join_str p b :
  normal p → tail p ≠ [] → startswith_char sep b = false →
  os_path_join (str p) b = str p +:+ "/" +:+ b.
Proof.
  intros Hn Hne Hb. destruct (str_no_trailing_sep p Hn Hne) as [H1 H2].
  unfold os_path_join. change "/"%char with sep. rewrite Hb, H2.
  apply String.eqb_neq in H1. rewrite H1. reflexivity.
Qed.

End more_path_facts.

(** ** Start-up *)

Section startup_facts.
Context (env : Env).
Import pystr pathlib.

Lemma DOWNLOAD_DIR_eq :
  DOWNLOAD_DIR env
  = {| root := root (BASE_DIR env); tail := tail (BASE_DIR env) ++ ["Downloads"] |}.
Proof. reflexivity. Qed.

Lemma OUTPUT_DIR_eq :
  OUTPUT_DIR env
  = {| root := root (BASE_DIR env); tail := tail (BASE_DIR env) ++ ["output"] |}.
Proof. reflexivity. Qed.

Lemma str_last_inj r l a b :
  str {| root := r; tail := l ++ [a] |} = str {| root := r; tail := l ++ [b] |} →
  a = b.
Proof.
  rewrite !str_components by (simpl; destruct l; discriminate). simpl.
  intros E%append_inv_l. destruct l as [|x l]; [exact E|].
  rewrite !concat_snoc in E by discriminate.
  apply append_inv_l, append_inv_l in E. exact E.
Qed.

(** The two directories have different paths. *)
Lemma DOWNLOAD_DIR_ne_OUTPUT_DIR : str (DOWNLOAD_DIR env) ≠ str (OUTPUT_DIR env).
Proof.
  rewrite DOWNLOAD_DIR_eq, OUTPUT_DIR_eq. intros E%str_last_inj. discriminate.
Qed.

End startup_facts.

(** X1. A start-up that succeeds leaves both the download and the output
    directory in place, touches no other entry and records nothing in the
    trace; starting up again from there changes nothing. *)
Theorem startup_makes_both_directories env (w w' : World) :
  startup env w = (Return tt, w') →
  fs w' !! pathlib.str (DOWNLOAD_DIR env) = Some Dir
  ∧ fs w' !! pathlib.str (OUTPUT_DIR env) = Some Dir
  ∧ (∀ k, k ≠ pathlib.str (DOWNLOAD_DIR env) →
          k ≠ pathlib.str (OUTPUT_DIR env) → fs w' !! k = fs w !! k)
  ∧ trace w' = trace w
  ∧ startup env w' = (Return tt, w').
Proof.
  unfold startup, bind.
  destruct (Path_mkdir env (DOWNLOAD_DIR env) true w) as [[[]|e] w1] eqn:E1;
    [|discriminate].
  intros E2.
  pose proof (Path_mkdir_trace _ _ _ _ _ E1) as T1.
  pose proof (Path_mkdir_trace _ _ _ _ _ E2) as T2.
  destruct (Path_mkdir_made _ _ _ _ E1) as (D1 & F1 & _).
  destruct (Path_mkdir_made _ _ _ _ E2) as (D2 & F2 & _).
  assert (Hd : fs w' !! pathlib.str (DOWNLOAD_DIR env) = Some Dir)
    by (rewrite F2 by apply DOWNLOAD_DIR_ne_OUTPUT_DIR; exact D1).
  split; [exact Hd|]. split; [exact D2|].
  split; [intros k Hk1 Hk2; rewrite F2, F1 by assumption; reflexivity|].
  split; [congruence|].
  rewrite (Path_mkdir_Dir _ _ _ Hd). apply Path_mkdir_Dir, D2.
Qed.

Lemma startup_makes_both_directories_witness :
  let w := {| fs := {[ "/etc/hostname" := File [Byte.x68; Byte.x0a] ]};
              trace := [] |} in
  startup demo.env w = (Return tt, demo.w0)
  ∧ fs demo.w0 !! "/srv/app/Downloads" = Some Dir
  ∧ fs demo.w0 !! "/srv/app/output" = Some Dir
  ∧ startup demo.env demo.w0 = (Return tt, demo.w0).
Proof.
  intros w.
  assert (H : startup demo.env w = (Return tt, demo.w0)) by (vm_compute; reflexivity).
  split; [exact H|].
  destruct (startup_makes_both_directories demo.env w demo.w0 H)
    as (Hd & Ho & _ & _ & Hi).
  split; [exact Hd|]. split; [exact Ho|exact Hi].
Defined.

(** X2. Whatever sits at the path of the download or of the output
    directory and is no directory (a regular file, a special file) keeps
    start-up from returning: [exist_ok] only accepts a directory.  What is
    raised is [FileExistsError] for such a path, unless nothing is at the
    download directory and the system refuses to make it, which comes
    first. *)
Theorem startup_blocked_by_a_file env (w : World) :
  (∃ n, fs w !! pathlib.str (DOWNLOAD_DIR env) = Some n ∧ n ≠ Dir)
  ∨ (∃ n, fs w !! pathlib.str (OUTPUT_DIR env) = Some n ∧ n ≠ Dir) →
  (∃ path w',
     startup env w
     = (Raise (OSError "FileExistsError"
                 ("[Errno 17] File exists: " +:+ pystr.repr path)), w')
     ∧ (path = pathlib.str (DOWNLOAD_DIR env) ∨ path = pathlib.str (OUTPUT_DIR env))
     ∧ ∃ n, fs w !! path = Some n ∧ n ≠ Dir)
  ∨ (∃ e,
       fs w !! pathlib.str (DOWNLOAD_DIR env) = None
       ∧ mkdir_refused env (pathlib.str (DOWNLOAD_DIR env)) (fs w) = Some e
       ∧ startup env w = (Raise (OtherException e), w)).
Proof.
  intros H. unfold startup, bind.
  destruct (fs w !! pathlib.str (DOWNLOAD_DIR env)) as [n|] eqn:Ed.
  - assert (Hdir : n = Dir ∨ n ≠ Dir)
      by (destruct n; [right|left|right]; congruence).
    destruct Hdir as [->|Hn].
    + destruct H as [(n & [= <-] & Hn)|(n & Ho & Hn)]; [congruence|].
      left. rewrite (Path_mkdir_Dir _ _ _ Ed), (Path_mkdir_blocked _ _ _ _ Ho Hn).
      eexists _, _. split; [reflexivity|]. split; [right; reflexivity|]. eauto.
    + left. rewrite (Path_mkdir_blocked _ _ _ _ Ed Hn).
      eexists _, _. split; [reflexivity|]. split; [left; reflexivity|]. eauto.
  - destruct H as [(n & [=] & _)|(n & Ho & Hn)].
    destruct (mkdir_refused env (pathlib.str (DOWNLOAD_DIR env)) (fs w))
      as [e|] eqn:Er.
    + right. exists e. rewrite (Path_mkdir_refused _ _ _ _ Ed Er). auto.
    + left. rewrite Path_mkdir_exist_ok, Ed, Er.
      assert (Ho' : fs {| fs := <[pathlib.str (DOWNLOAD_DIR env) := Dir]> (fs w);
                          trace := trace w |} !! pathlib.str (OUTPUT_DIR env)
                    = Some n).
      { cbn [fs]. rewrite lookup_insert_ne by apply DOWNLOAD_DIR_ne_OUTPUT_DIR.
        exact Ho. }
      rewrite (Path_mkdir_blocked _ _ _ _ Ho' Hn).
      eexists _, _. split; [reflexivity|]. split; [right; reflexivity|]. eauto.
Qed.

Lemma startup_blocked_by_a_file_witness :
  let w := {| fs := {[ "/srv/app/output" := File [Byte.x00] ]}; trace := [] |} in
  ((∃ n, fs w !! pathlib.str (DOWNLOAD_DIR demo.env) = Some n ∧ n ≠ Dir)
   ∨ (∃ n, fs w !! pathlib.str (OUTPUT_DIR demo.env) = Some n ∧ n ≠ Dir))
  ∧ ∃ path w',
      startup demo.env w
      = (Raise (OSError "FileExistsError"
                  ("[Errno 17] File exists: " +:+ pystr.repr path)), w').
Proof.
  intros w.
  assert (H : (∃ n, fs w !! pathlib.str (DOWNLOAD_DIR demo.env) = Some n ∧ n ≠ Dir)
              ∨ (∃ n, fs w !! pathlib.str (OUTPUT_DIR demo.env) = Some n ∧ n ≠ Dir))
    by (right; exists (File [Byte.x00]); split; [vm_compute; reflexivity|discriminate]).
  split; [exact H|].
  destruct (startup_blocked_by_a_file demo.env w H)
    as [(path & w' & Hs & _)|(e & _ & Hr & _)]; [|discriminate Hr].
  exists path, w'. exact Hs.
Defined.

(** ** The fetcher and its paths *)

Section fetcher_facts.
Context (env : Env).
Import pystr pathlib.

Lemma DOWNLOAD_DIR_name : name (DOWNLOAD_DIR env) = "Downloads".
Proof. rewrite DOWNLOAD_DIR_eq. apply name_snoc. Qed.

(** Below a path with a last component, a relative key leaves a path with
    a last component. *)
Lemma name_truediv_relative p key :
  name p ≠ "" → startswith_char sep key = false → name (p // key) ≠ "".
Proof.
  intros Hp Hkey. rewrite truediv_relative by assumption.
  pose proof (Path_normal key) as [_ Hall].
  destruct (tail (Path key)) as [|x l] using rev_ind.
  - rewrite app_nil_r. exact Hp.
  - unfold name. simpl. rewrite app_assoc, last_snoc. simpl.
    apply Forall_app in Hall as [_ Hx]. inversion Hx as [|? ? [Hk _]]; subst.
    apply keep_part_true in Hk as [Hk1 _]. exact Hk1.
Qed.

Lemma download_path_relative file_name :
  startswith_char sep file_name = false →
  name (DOWNLOAD_DIR env // file_name) ≠ "".
Proof.
  apply name_truediv_relative. rewrite DOWNLOAD_DIR_name. discriminate.
Qed.

End fetcher_facts.

(** X3. For a file name that does not start with a slash, [download_audio]
    always gets as far as the downloader: it returns the download path, or
    raises the [HTTPException] 400 made from the downloader's exception, and
    nothing else. *)
Theorem relative_name_reaches_downloader env youtube_url file_name (w : World) :
  pystr.startswith_char "/" file_name = false →
  ∃ template r files',
    pathlib.with_suffix (DOWNLOAD_DIR env // file_name) "" = Return template
    ∧ ydl_download env (ydl_opts (pathlib.str template)) youtube_url (fs w)
      = (r, files')
    ∧ download_audio env youtube_url file_name w
      = (match r with
         | inl e => Raise (HTTPException 400 ("Download failed: " +:+ exc_str e))
         | inr _ => Return (pathlib.str (DOWNLOAD_DIR env // file_name) +:+ ".mp3")
         end,
         {| fs := files';
            trace := trace w ++ [Enter_download_audio youtube_url file_name;
                                 Call_ydl (ydl_opts (pathlib.str template))
                                   youtube_url] |}).
Proof.
  intros Hrel. pose proof (download_path_relative env file_name Hrel) as Hname.
  eexists _, _, _. split; [apply with_suffix_empty, Hname|].
  split; [apply surjective_pairing|].
  rewrite download_audio_unfold, with_suffix_empty by exact Hname. cbv zeta.
  destruct (ydl_download _ _ _ _) as [[e|[]] files']; reflexivity.
Qed.

Lemma relative_name_reaches_downloader_witness :
  pystr.startswith_char "/" "../../etc/song" = false
  ∧ ∃ template r files',
      pathlib.with_suffix (DOWNLOAD_DIR demo.env // "../../etc/song") ""
        = Return template
      ∧ ydl_download demo.env (ydl_opts (pathlib.str template)) demo.url_ok
          (fs demo.w0) = (r, files').
Proof.
  assert (H : pystr.startswith_char "/" "../../etc/song" = false) by reflexivity.
  split; [exact H|].
  destruct (relative_name_reaches_downloader demo.env demo.url_ok
              "../../etc/song" demo.w0 H) as (t & r & f & H1 & H2 & _).
  exists t, r, f. split; [exact H1|exact H2].
Defined.



(** X5. The path [download_audio] returns is the downloader's output
    template followed by [.mp3] exactly when the last component of the
    download path has no suffix: the template is built with the suffix
    removed, the returned path with the suffix kept. *)
Theorem returned_path_matches_template
    env youtube_url file_name (w : World) file_path w1 :
  download_audio env youtube_url file_name w = (Return file_path, w1) →
  ∃ opts,
    trace w1 = trace w ++ [Enter_download_audio youtube_url file_name;
                           Call_ydl opts youtube_url]
    ∧ (file_path = yt_dlp.outtmpl opts +:+ ".mp3"
       ↔ pathlib.suffix (DOWNLOAD_DIR env // file_name) = "").
Proof.
  rewrite download_audio_unfold. cbv zeta.
  destruct (pathlib.with_suffix _ _) as [template|e] eqn:Ew; [|discriminate].
  destruct (ydl_download _ _ _ _) as [[e|[]] files']; [discriminate|].
  intros [= <- <-]. eexists. split; [reflexivity|]. simpl.
  set (p := DOWNLOAD_DIR env // file_name) in *.
  assert (Hname : pathlib.name p ≠ "").
  { intros E. unfold pathlib.with_suffix in Ew. simpl in Ew. rewrite E in Ew.
    discriminate. }
  rewrite with_suffix_empty in Ew by exact Hname. injection Ew as <-.
  destruct (name_stem_suffix p) as [Hn _].
  assert (Hp : p = {| pathlib.root := pathlib.root p;
                      pathlib.tail := removelast (pathlib.tail p) ++ [pathlib.name p] |}).
  { destruct p as [r t]. simpl. f_equal. apply (tail_snoc {| pathlib.root := r; pathlib.tail := t |} Hname). }
  split.
  - intros E%append_inv_r. rewrite Hp in E at 1. apply str_last_inj in E.
    rewrite Hn in E at 1.
    rewrite <- (append_empty_r (pathlib.stem p)) in E at 2.
    apply append_inv_l in E. exact E.
  - intros E. rewrite E, append_empty_r in Hn. rewrite <- Hn, <- Hp. reflexivity.
Qed.

Lemma returned_path_matches_template_witness :
  download_audio demo.env demo.url_ok "song.v1" demo.w0
  = (Return "/srv/app/Downloads/song.v1.mp3",
     (download_audio demo.env demo.url_ok "song.v1" demo.w0).2)
  ∧ pathlib.suffix (DOWNLOAD_DIR demo.env // "song.v1") ≠ ""
  ∧ ∃ opts,
      trace (download_audio demo.env demo.url_ok "song.v1" demo.w0).2
      = trace demo.w0 ++ [Enter_download_audio demo.url_ok "song.v1";
                          Call_ydl opts demo.url_ok]
      ∧ "/srv/app/Downloads/song.v1.mp3" ≠ yt_dlp.outtmpl opts +:+ ".mp3".
Proof.
  assert (H : download_audio demo.env demo.url_ok "song.v1" demo.w0
              = (Return "/srv/app/Downloads/song.v1.mp3",
                 (download_audio demo.env demo.url_ok "song.v1" demo.w0).2))
    by (vm_compute; reflexivity).
  assert (Hs : pathlib.suffix (DOWNLOAD_DIR demo.env // "song.v1") ≠ "")
    by (vm_compute; discriminate).
  split; [exact H|]. split; [exact Hs|].
  destruct (returned_path_matches_template demo.env demo.url_ok "song.v1" demo.w0
              _ _ H) as (opts & Ht & Hiff).
  exists opts. split; [exact Ht|]. intros E. apply Hs, Hiff, E.
Defined.

(** X6. With an empty file name the download path is the download directory
    itself: the downloader is handed the path of the directory as its
    template, and, when it returns, [download_audio] returns that path
    followed by [.mp3], a sibling of the directory. *)
Theorem empty_name_is_the_directory env youtube_url (w : World) :
  ∃ r files',
    ydl_download env (ydl_opts (pathlib.str (DOWNLOAD_DIR env))) youtube_url (fs w)
      = (r, files')
    ∧ download_audio env youtube_url "" w
      = (match r with
         | inl e => Raise (HTTPException 400 ("Download failed: " +:+ exc_str e))
         | inr _ => Return (pathlib.str (DOWNLOAD_DIR env) +:+ ".mp3")
         end,
         {| fs := files';
            trace := trace w ++
              [Enter_download_audio youtube_url "";
               Call_ydl (ydl_opts (pathlib.str (DOWNLOAD_DIR env))) youtube_url] |}).
Proof.
  assert (E : DOWNLOAD_DIR env // "" = DOWNLOAD_DIR env).
  { rewrite truediv_relative by reflexivity. simpl. rewrite app_nil_r.
    reflexivity. }
  assert (Ht : pathlib.with_suffix (DOWNLOAD_DIR env) "" = Return (DOWNLOAD_DIR env)).
  { rewrite with_suffix_empty by (rewrite DOWNLOAD_DIR_name; discriminate).
    rewrite DOWNLOAD_DIR_eq. cbn [pathlib.root pathlib.tail].
    rewrite removelast_last. unfold pathlib.stem. rewrite name_snoc.
    reflexivity. }
  eexists _, _. split; [apply surjective_pairing|].
  rewrite download_audio_unfold, E, Ht. cbv zeta.
  destruct (ydl_download _ _ _ _) as [[e|[]] files']; reflexivity.
Qed.

(** ** The separator and its directory *)

(** X7. [separate_audio] makes the directory of the song before it calls the
    separator.  Whatever sits at that path and is no directory stops it with
    [FileExistsError]; where nothing is there and the system refuses to make
    the directory (a name too long, an embedded NUL, a missing parent), the
    exception of [mkdir] stops it; in both cases the separator is not
    called.  Otherwise the separator runs on a file system in which the
    directory exists, and its outcome decides between the path of the
    directory and an [HTTPException] 500. *)
Theorem separator_runs_in_its_directory env file_path (w : World) :
  let d := pathlib.str (OUTPUT_DIR env // pathlib.stem (pathlib.Path file_path)) in
  let entered := logged w [Enter_separate_audio file_path] in
  (∀ n, fs w !! d = Some n → n ≠ Dir →
        separate_audio env file_path w
        = (Raise (OSError "FileExistsError"
                    ("[Errno 17] File exists: " +:+ pystr.repr d)), entered))
  ∧ (∀ e, fs w !! d = None → mkdir_refused env d (fs w) = Some e →
          separate_audio env file_path w = (Raise (OtherException e), entered))
  ∧ (fs w !! d = Some Dir
     ∨ (fs w !! d = None ∧ mkdir_refused env d (fs w) = None) →
     ∃ r files',
       spleeter_separate env "spleeter:2stems" file_path
         (pathlib.str (OUTPUT_DIR env)) (<[d := Dir]> (fs w)) = (r, files')
       ∧ separate_audio env file_path w
         = (match r with
            | inl e =>
                Raise (HTTPException 500 ("Separation failed: " +:+ exc_str e))
            | inr _ => Return d
            end,
            {| fs := files';
               trace := trace w ++
                 [Enter_separate_audio file_path;
                  Call_spleeter "spleeter:2stems" file_path
                    (pathlib.str (OUTPUT_DIR env))] |})).
Proof.
  intros d entered. split; [|split].
  - intros n Hn Hnd. rewrite separate_audio_unfold. cbv zeta.
    rewrite (Path_mkdir_blocked env _ (logged w [Enter_separate_audio file_path])
               n Hn Hnd).
    reflexivity.
  - intros e Hn Hr. rewrite separate_audio_unfold. cbv zeta.
    rewrite (Path_mkdir_refused env _ (logged w [Enter_separate_audio file_path])
               e Hn Hr).
    reflexivity.
  - intros H. eexists _, _. split; [apply surjective_pairing|].
    rewrite separate_audio_unfold. cbv zeta.
    rewrite Path_mkdir_exist_ok. cbn [fs logged]. fold d.
    destruct H as [Ed|[Ed Er]]; rewrite Ed, ?Er.
    + rewrite (insert_id (fs w) d Dir Ed). cbn [fs trace].
      destruct (spleeter_separate _ _ _ _ _) as [[e|[]] files']; simpl;
        rewrite <- app_assoc; reflexivity.
    + cbn [fs trace].
      destruct (spleeter_separate _ _ _ _ _) as [[e|[]] files']; simpl;
        rewrite <- app_assoc; reflexivity.
Qed.

Lemma separator_runs_in_its_directory_witness :
  let file_path := "/srv/app/Downloads/song1.mp3" in
  let d := "/srv/app/output/song1" in
  let blocked := {| fs := <[d := Special]> demo.fs0; trace := [] |} in
  let long_path := "/srv/app/Downloads/" +:+ demo_os.long_name +:+ ".mp3" in
  let long_d := "/srv/app/output/" +:+ demo_os.long_name in
  let e := mkPyError "OSError"
             ("[Errno 36] File name too long: " +:+ pystr.repr long_d) in
  fs blocked !! d = Some Special
  ∧ fs demo.w0 !! long_d = None
  ∧ mkdir_refused demo_os.env long_d (fs demo.w0) = Some e
  ∧ (fs demo.w_fetched !! d = None
     ∧ mkdir_refused demo.env d (fs demo.w_fetched) = None)
  ∧ separate_audio demo.env file_path blocked
    = (Raise (OSError "FileExistsError"
                "[Errno 17] File exists: '/srv/app/output/song1'"),
       logged blocked [Enter_separate_audio file_path])
  ∧ separate_audio demo_os.env long_path demo.w0
    = (Raise (OtherException e), logged demo.w0 [Enter_separate_audio long_path])
  ∧ ∃ r files',
      spleeter_separate demo.env "spleeter:2stems" file_path "/srv/app/output"
        (<[d := Dir]> (fs demo.w_fetched)) = (r, files')
      ∧ (separate_audio demo.env file_path demo.w_fetched).1
        = match r with
          | inl e => Raise (HTTPException 500 ("Separation failed: " +:+ exc_str e))
          | inr _ => Return d
          end.
Proof.
  intros file_path d blocked long_path long_d e.
  assert (H1 : fs blocked !! d = Some Special) by (vm_compute; reflexivity).
  assert (H2 : fs demo.w0
                 !! pathlib.str (OUTPUT_DIR demo_os.env
                                 // pathlib.stem (pathlib.Path long_path)) = None)
    by (vm_compute; reflexivity).
  assert (H3 : mkdir_refused demo_os.env
                 (pathlib.str (OUTPUT_DIR demo_os.env
                               // pathlib.stem (pathlib.Path long_path)))
                 (fs demo.w0) = Some e)
    by (vm_compute; reflexivity).
  assert (H4 : fs demo.w_fetched !! d = None
               ∧ mkdir_refused demo.env d (fs demo.w_fetched) = None)
    by (split; vm_compute; reflexivity).
  split; [exact H1|]. split; [vm_compute; reflexivity|].
  split; [vm_compute; reflexivity|]. split; [exact H4|]. split; [|split].
  - refine (proj1 (separator_runs_in_its_directory demo.env file_path blocked)
              Special H1 _).
    discriminate.
  - exact (proj1 (proj2 (separator_runs_in_its_directory demo_os.env long_path
                           demo.w0)) e H2 H3).
  - destruct (proj2 (proj2 (separator_runs_in_its_directory demo.env file_path
                              demo.w_fetched)) (or_intror H4))
      as (r & files' & Hr & Hs).
    exists r, files'. split; [exact Hr|]. rewrite Hs. reflexivity.
Defined.

(** ** The paths along the pipeline *)

Section path_chain.
Context (env : Env).
Hypothesis BASE_DIR_normal : normal (BASE_DIR env).
Import pystr pathlib.

Lemma DOWNLOAD_DIR_normal : normal (DOWNLOAD_DIR env).
Proof. apply normal_truediv, BASE_DIR_normal. Qed.

Lemma OUTPUT_DIR_normal : normal (OUTPUT_DIR env).
Proof. apply normal_truediv, BASE_DIR_normal. Qed.

Lemma normal_last p :
  normal p → name p ≠ "" →
  keep_part (name p) = true ∧ contains_char sep (name p) = false.
Proof.
  intros [_ Hall] Hne. rewrite (tail_snoc p Hne) in Hall.
  apply Forall_app in Hall as [_ Hx]. inversion Hx; subst. assumption.
Qed.

Lemma path_snoc p :
  name p ≠ "" →
  p = {| root := root p; tail := removelast (tail p) ++ [name p] |}.
Proof.
  intros Hne. destruct p as [r t]. simpl. f_equal.
  apply (tail_snoc {| root := r; tail := t |} Hne).
Qed.

Lemma str_snoc r l x :
  l ≠ [] →
  str {| root := r; tail := l ++ [x] |}
  = str {| root := r; tail := l |} +:+ "/" +:+ x.
Proof.
  intros Hne. rewrite !str_components; cbn [root tail]; [|assumption|].
  - rewrite concat_snoc by assumption. rewrite !append_assoc. reflexivity.
  - destruct l; discriminate.
Qed.

Lemma keep_part_long x : (2 ≤ String.length x)%nat → keep_part x = true.
Proof.
  intros H. apply keep_part_true. split; intros ->; simpl in H; lia.
Qed.

(** The path [download_audio] returns, parsed again: the download path with
    [.mp3] added to its last component, whose stem is that component. *)
Lemma Path_mp3 p :
  normal p → name p ≠ "" →
  Path (str p +:+ ".mp3")
  = {| root := root p; tail := removelast (tail p) ++ [name p +:+ ".mp3"] |}.
Proof.
  intros Hn Hne. destruct (normal_last p Hn Hne) as [Hk Hs].
  rewrite <- (Path_str {| root := root p;
                          tail := removelast (tail p) ++ [name p +:+ ".mp3"] |}).
  - rewrite str_last_append, <- (path_snoc p Hne). reflexivity.
  - apply normal_removelast; [assumption| |].
    + apply keep_part_long. rewrite length_append. simpl. lia.
    + rewrite contains_char_append, Hs. reflexivity.
Qed.

Lemma stem_mp3 p :
  normal p → name p ≠ "" → stem (Path (str p +:+ ".mp3")) = name p.
Proof.
  intros Hn Hne. rewrite Path_mp3 by assumption.
  apply (stem_append_ext _ _ _ "mp3"); [assumption|discriminate|reflexivity].
Qed.

(** A directory of the output directory, for a plain name. *)
Lemma OUTPUT_DIR_child x :
  keep_part x = true → contains_char sep x = false →
  OUTPUT_DIR env // x
  = {| root := root (OUTPUT_DIR env); tail := tail (OUTPUT_DIR env) ++ [x] |}.
Proof.
  intros Hk Hs. unfold truediv. rewrite (Path_part x Hk Hs). reflexivity.
Qed.

(** The stem file [s.wav] in a directory, and where the trimmer writes. *)
Lemma stem_file_in_dir q s :
  normal q → tail q ≠ [] → s ≠ "" → contains_char sep s = false →
  os_path_join (str q) (s +:+ ".wav") = str q +:+ "/" +:+ s +:+ ".wav"
  ∧ str (sound_path (str q +:+ "/" +:+ s +:+ ".wav"))
    = str q +:+ "/" +:+ s +:+ "_sound.wav".
Proof.
  intros Hn Hne Hs Hsep. split.
  - apply os_path_join_str; [assumption..|].
    rewrite startswith_char_append by assumption.
    apply startswith_char_contains, Hsep.
  - set (P := {| root := root q; tail := tail q ++ [s +:+ ".wav"] |}).
    assert (HP : normal P).
    { destruct Hn as [Hr Hall]. split; [exact Hr|]. simpl.
      apply Forall_app. split; [exact Hall|]. repeat constructor.
      - apply keep_part_long. rewrite length_append. simpl. lia.
      - rewrite contains_char_append, Hsep. reflexivity. }
    assert (E : str q +:+ "/" +:+ s +:+ ".wav" = str P).
    { unfold P. rewrite str_snoc by assumption. destruct q; reflexivity. }
    rewrite E. unfold sound_path. rewrite (Path_str P HP). unfold P.
    cbn [root tail]. rewrite removelast_last.
    rewrite (stem_append_ext _ _ s "wav") by (assumption || discriminate || reflexivity).
    rewrite str_snoc by assumption. destruct q; reflexivity.
Qed.

Lemma stem_file_name q s :
  normal q → tail q ≠ [] → s ≠ "" → contains_char sep s = false →
  name (Path (str q +:+ "/" +:+ s +:+ ".wav")) = s +:+ ".wav".
Proof.
  intros Hn Hne Hs Hsep.
  set (P := {| root := root q; tail := tail q ++ [s +:+ ".wav"] |}).
  assert (HP : normal P).
  { destruct Hn as [Hr Hall]. split; [exact Hr|]. simpl.
    apply Forall_app. split; [exact Hall|]. repeat constructor.
    - apply keep_part_long. rewrite length_append. simpl. lia.
    - rewrite contains_char_append, Hsep. reflexivity. }
  assert (E : str q +:+ "/" +:+ s +:+ ".wav" = str P).
  { unfold P. rewrite str_snoc by assumption. destruct q; reflexivity. }
  rewrite E, (Path_str P HP). apply name_snoc.
Qed.

End path_chain.

Lemma download_audio_Return_name env youtube_url file_name (w : World) file_path w1 :
  download_audio env youtube_url file_name w = (Return file_path, w1) →
  pathlib.name (DOWNLOAD_DIR env // file_name) ≠ "".
Proof.
  rewrite download_audio_unfold. cbv zeta.
  destruct (pathlib.with_suffix _ _) as [template|e] eqn:Ew; [|discriminate].
  intros _ E. unfold pathlib.with_suffix in Ew. simpl in Ew. rewrite E in Ew.
  discriminate.
Qed.

(** The directory of the song, as a path in normal form. *)
Lemma song_directory env file_name :
  normal (BASE_DIR env) →
  pathlib.name (DOWNLOAD_DIR env // file_name) ≠ "" →
  let nm := pathlib.name (DOWNLOAD_DIR env // file_name) in
  let q := {| pathlib.root := pathlib.root (OUTPUT_DIR env);
              pathlib.tail := pathlib.tail (OUTPUT_DIR env) ++ [nm] |} in
  OUTPUT_DIR env
    // pathlib.stem (pathlib.Path
                       (pathlib.str (DOWNLOAD_DIR env // file_name) +:+ ".mp3"))
  = q
  ∧ normal q
  ∧ pathlib.str q = pathlib.str (OUTPUT_DIR env) +:+ "/" +:+ nm.
Proof.
  intros Hbase Hne nm q.
  assert (Hp : normal (DOWNLOAD_DIR env // file_name))
    by apply normal_truediv, DOWNLOAD_DIR_normal, Hbase.
  destruct (normal_last _ Hp Hne) as [Hk Hs].
  split; [|split].
  - rewrite stem_mp3 by assumption. apply OUTPUT_DIR_child; assumption.
  - destruct (OUTPUT_DIR_normal env Hbase) as [Hr Hall]. split; [exact Hr|].
    simpl. apply Forall_app. split; [exact Hall|]. repeat constructor; assumption.
  - unfold q. rewrite str_snoc by apply OUTPUT_DIR_tail.
    destruct (OUTPUT_DIR env); reflexivity.
Qed.

(** X8. The paths of a request, when the script lives at a path in normal
    form.  With [nm] the last component of the download path: the separator's
    directory is [OUTPUT_DIR/nm]; the stem that is selected is [vocals.wav]
    or [accompaniment.wav] in that directory; and the trimmer derives
    [vocals_sound.wav] or [accompaniment_sound.wav] in the same directory. *)
Theorem pipeline_paths
    env youtube_url file_name (w : World) file_path w1 out_dir w2 :
  normal (BASE_DIR env) →
  download_audio env youtube_url file_name w = (Return file_path, w1) →
  separate_audio env file_path w1 = (Return out_dir, w2) →
  let nm := pathlib.name (DOWNLOAD_DIR env // file_name) in
  out_dir = pathlib.str (OUTPUT_DIR env) +:+ "/" +:+ nm
  ∧ os_path_join out_dir "vocals.wav" = out_dir +:+ "/vocals.wav"
  ∧ os_path_join out_dir "accompaniment.wav" = out_dir +:+ "/accompaniment.wav"
  ∧ pathlib.str (sound_path (out_dir +:+ "/vocals.wav"))
    = out_dir +:+ "/vocals_sound.wav"
  ∧ pathlib.str (sound_path (out_dir +:+ "/accompaniment.wav"))
    = out_dir +:+ "/accompaniment_sound.wav".
Proof.
  intros Hbase Hdl Hsep nm.
  pose proof (download_audio_Return_name _ _ _ _ _ _ Hdl) as Hne.
  apply download_audio_Return in Hdl as [-> _].
  apply separate_audio_Return in Hsep as [-> _].
  destruct (song_directory env file_name Hbase Hne) as (Eq & Hq & Hstr).
  rewrite Eq. set (q := {| pathlib.root := _; pathlib.tail := _ |}) in *.
  assert (Ht : pathlib.tail q ≠ [])
    by (unfold q; cbn [pathlib.tail]; intros [_ E]%app_nil; discriminate).
  split; [exact Hstr|].
  assert (Hv : "vocals" ≠ "") by discriminate.
  assert (Ha : "accompaniment" ≠ "") by discriminate.
  pose proof (stem_file_in_dir q "vocals" Hq Ht Hv eq_refl) as [Hv1 Hv2].
  pose proof (stem_file_in_dir q "accompaniment" Hq Ht Ha eq_refl) as [Ha1 Ha2].
  repeat split; assumption.
Qed.

Lemma pipeline_paths_witness :
  normal (BASE_DIR demo.env)
  ∧ download_audio demo.env demo.url_ok "song1" demo.w0
    = (Return "/srv/app/Downloads/song1.mp3", demo.w_fetched)
  ∧ separate_audio demo.env "/srv/app/Downloads/song1.mp3" demo.w_fetched
    = (Return "/srv/app/output/song1", demo.w_separated)
  ∧ pathlib.str (sound_path ("/srv/app/output/song1" +:+ "/vocals.wav"))
    = "/srv/app/output/song1" +:+ "/vocals_sound.wav".
Proof.
  assert (H0 : normal (BASE_DIR demo.env)) by apply Path_normal.
  assert (H1 : download_audio demo.env demo.url_ok "song1" demo.w0
               = (Return "/srv/app/Downloads/song1.mp3", demo.w_fetched))
    by (vm_compute; reflexivity).
  assert (H2 : separate_audio demo.env "/srv/app/Downloads/song1.mp3" demo.w_fetched
               = (Return "/srv/app/output/song1", demo.w_separated))
    by (vm_compute; reflexivity).
  split; [exact H0|]. split; [exact H1|]. split; [exact H2|].
  exact (proj1 (proj2 (proj2 (proj2
           (pipeline_paths demo.env demo.url_ok "song1" demo.w0 _ _ _ _ H0 H1 H2))))).
Defined.

(** ** The end of the pipeline *)

Lemma pipeline_Return env youtube_url file_name file_type (w : World) v w4 :
  pipeline env youtube_url file_name file_type w = (Return v, w4) →
  let final_path :=
    pathlib.str (OUTPUT_DIR env
                 // (pathlib.stem (pathlib.Path file_name) +:+ "_sound.wav")) in
  ∃ file_path w1 out_dir w2 sound_file w3,
    download_audio env youtube_url file_name w = (Return file_path, w1)
    ∧ separate_audio env file_path w1 = (Return out_dir, w2)
    ∧ keep_only_sound env
        (if String.eqb file_type "vocals" then os_path_join out_dir "vocals.wav"
         else os_path_join out_dir "accompaniment.wav") w2
      = (Return sound_file, w3)
    ∧ os_replace sound_file final_path w3 = (Return tt, w4)
    ∧ v = Dict (file_body ("/file?v=" +:+ final_path)).
Proof.
  unfold pipeline, bind.
  destruct (download_audio _ _ _ _) as [[file_path|e] w1] eqn:E1; [|discriminate].
  destruct (separate_audio _ _ _) as [[out_dir|e] w2] eqn:E2; [|discriminate].
  destruct (keep_only_sound _ _ _) as [[sound_file|e] w3] eqn:E3; [|discriminate].
  destruct (os_replace _ _ _) as [[[]|e] w5] eqn:E4; [|discriminate].
  intros [= <- <-]. eexists _, _, _, _, _, _. repeat split; eassumption.
Qed.

(** A 200 from the processing endpoint is the answer of a pipeline that ran
    to its end. *)
Lemma GET_process_200 env youtube_url file_name file_type (w : World) resp w' :
  GET_process env youtube_url file_name file_type w = (resp, w') →
  status resp = 200 →
  ∃ v, pipeline env youtube_url file_name file_type w = (Return v, w')
       ∧ resp = fastapi_send (Return v) (fs w').
Proof.
  unfold GET_process, serve.
  destruct (decide (file_type ∈ accepted_file_types)) as [Hty|Hty].
  - rewrite process_audio_accepted by assumption. unfold try_except.
    destruct (pipeline _ _ _ _ _) as [[v|[sc d|e]] w1] eqn:E.
    + intros [= <- <-] _. eauto.
    + apply pipeline_outcome in E.
      simpl. intros [= <- <-]. simpl. lia.
    + simpl. intros [= <- <-]. simpl. lia.
  - rewrite process_audio_rejected by assumption. simpl.
    intros [= <- <-]. simpl. lia.
Qed.

(** The trimmed file and the stable path are different paths. *)
Lemma sound_file_ne_final_path env file_name nm s :
  pathlib.str (OUTPUT_DIR env) +:+ "/" +:+ nm +:+ "/" +:+ s
  ≠ pathlib.str (OUTPUT_DIR env) +:+ "/"
      +:+ pathlib.stem (pathlib.Path file_name) +:+ "_sound.wav".
Proof.
  intros E. apply append_inv_l, append_inv_l in E.
  apply (f_equal (pystr.contains_char pathlib.sep)) in E.
  rewrite (proj2 (sound_name_valid file_name)) in E.
  rewrite !contains_char_append in E. simpl in E.
  rewrite orb_true_r in E. discriminate.
Qed.

(** X9. When the script lives at a path in normal form, the last step of a
    request is a real move: the trimmed file and the stable path are
    different paths; after [os.replace] the entry is at the stable path and
    no longer in the directory of the song, and no other entry has changed. *)
Theorem trimmed_file_is_moved
    env youtube_url file_name file_type (w : World)
    file_path w1 out_dir w2 sound_file w3 w4 :
  let selected_file :=
    if String.eqb file_type "vocals" then os_path_join out_dir "vocals.wav"
    else os_path_join out_dir "accompaniment.wav" in
  let final_path :=
    pathlib.str (OUTPUT_DIR env
                 // (pathlib.stem (pathlib.Path file_name) +:+ "_sound.wav")) in
  normal (BASE_DIR env) →
  download_audio env youtube_url file_name w = (Return file_path, w1) →
  separate_audio env file_path w1 = (Return out_dir, w2) →
  keep_only_sound env selected_file w2 = (Return sound_file, w3) →
  os_replace sound_file final_path w3 = (Return tt, w4) →
  sound_file ≠ final_path
  ∧ fs w4 !! sound_file = None
  ∧ (∃ n, fs w3 !! sound_file = Some n ∧ fs w4 !! final_path = Some n)
  ∧ ∀ k, k ≠ sound_file → k ≠ final_path → fs w4 !! k = fs w3 !! k.
Proof.
  intros selected_file final_path Hbase Hdl Hsep Htrim Hmove.
  assert (Hne : sound_file ≠ final_path).
  { pose proof (download_audio_Return_name _ _ _ _ _ _ Hdl) as Hname.
    apply download_audio_Return in Hdl as [-> _].
    apply separate_audio_Return in Hsep as [-> _].
    apply keep_only_sound_Return in Htrim as [-> _].
    destruct (song_directory env file_name Hbase Hname) as (Eq & Hq & Hstr).
    unfold selected_file, final_path. rewrite Eq, final_path_in_OUTPUT_DIR.
    set (q := {| pathlib.root := _; pathlib.tail := _ |}) in *.
    assert (Ht : pathlib.tail q ≠ [])
      by (unfold q; cbn [pathlib.tail]; intros [_ E]%app_nil; discriminate).
    assert (Hv : "vocals" ≠ "") by discriminate.
    assert (Ha : "accompaniment" ≠ "") by discriminate.
    pose proof (stem_file_in_dir q "vocals" Hq Ht Hv eq_refl) as [Hv1 Hv2].
    pose proof (stem_file_in_dir q "accompaniment" Hq Ht Ha eq_refl) as [Ha1 Ha2].
    destruct (String.eqb file_type "vocals").
    - change (os_path_join (pathlib.str q) "vocals.wav")
        with (os_path_join (pathlib.str q) ("vocals" +:+ ".wav")).
      rewrite Hv1, Hv2, Hstr, !append_assoc. apply sound_file_ne_final_path.
    - change (os_path_join (pathlib.str q) "accompaniment.wav")
        with (os_path_join (pathlib.str q) ("accompaniment" +:+ ".wav")).
      rewrite Ha1, Ha2, Hstr, !append_assoc. apply sound_file_ne_final_path. }
  apply os_replace_Return in Hmove as (_ & n & Hn & ->).
  split; [exact Hne|]. split; [|split].
  - rewrite lookup_insert_ne by congruence. apply lookup_delete_eq.
  - exists n. split; [exact Hn|apply lookup_insert_eq].
  - intros k Hk1 Hk2. rewrite lookup_insert_ne, lookup_delete_ne by congruence.
    reflexivity.
Qed.

Lemma trimmed_file_is_moved_witness :
  let sound_file := "/srv/app/output/song1/vocals_sound.wav" in
  let final_path := "/srv/app/output/song1_sound.wav" in
  normal (BASE_DIR demo.env)
  ∧ download_audio demo.env demo.url_ok "song1" demo.w0
    = (Return "/srv/app/Downloads/song1.mp3", demo.w_fetched)
  ∧ separate_audio demo.env "/srv/app/Downloads/song1.mp3" demo.w_fetched
    = (Return "/srv/app/output/song1", demo.w_separated)
  ∧ keep_only_sound demo.env "/srv/app/output/song1/vocals.wav" demo.w_separated
    = (Return sound_file, demo.w_trimmed)
  ∧ os_replace sound_file final_path demo.w_trimmed = (Return tt, demo.w_final)
  ∧ sound_file ≠ final_path
  ∧ fs demo.w_final !! sound_file = None.
Proof.
  intros sound_file final_path.
  assert (H0 : normal (BASE_DIR demo.env)) by apply Path_normal.
  assert (H1 : download_audio demo.env demo.url_ok "song1" demo.w0
               = (Return "/srv/app/Downloads/song1.mp3", demo.w_fetched))
    by (vm_compute; reflexivity).
  assert (H2 : separate_audio demo.env "/srv/app/Downloads/song1.mp3" demo.w_fetched
               = (Return "/srv/app/output/song1", demo.w_separated))
    by (vm_compute; reflexivity).
  assert (H3 : keep_only_sound demo.env "/srv/app/output/song1/vocals.wav"
                 demo.w_separated = (Return sound_file, demo.w_trimmed))
    by (vm_compute; reflexivity).
  assert (H4 : os_replace sound_file final_path demo.w_trimmed
               = (Return tt, demo.w_final)) by (vm_compute; reflexivity).
  repeat (split; [assumption|]).
  destruct (trimmed_file_is_moved demo.env demo.url_ok "song1" "vocals" demo.w0
              _ _ _ _ _ _ _ H0 H1 H2 H3 H4) as (Hne & Hnone & _).
  split; [exact Hne|exact Hnone].
Defined.

(** X10. A 200 from the processing endpoint hands out a reference that the
    file endpoint can serve: the body is [{"file": "/file?v=<path>"}] for the
    stable path, an entry exists at that path in the world the request
    leaves, and when it is a regular file the file endpoint answers 200 with
    its bytes. *)
Theorem finished_request_can_be_fetched
    env youtube_url file_name file_type (w : World) resp w' :
  let final_path :=
    pathlib.str (OUTPUT_DIR env
                 // (pathlib.stem (pathlib.Path file_name) +:+ "_sound.wav")) in
  GET_process env youtube_url file_name file_type w = (resp, w') →
  status resp = 200 →
  resp = json_response 200 (file_body ("/file?v=" +:+ final_path))
  ∧ is_Some (fs w' !! final_path)
  ∧ ∀ b, fs w' !! final_path = Some (File b) →
         GET_file env final_path w'
         = ({| status := 200; content_type := "audio/wav";
               payload := BodyBytes b |}, w').
Proof.
  intros final_path Hget H200.
  destruct (GET_process_200 _ _ _ _ _ _ _ Hget H200) as (v & Hp & ->).
  apply pipeline_Return in Hp
    as (file_path & w1 & out_dir & w2 & sound_file & w3 & _ & _ & _ & Hmove & ->).
  apply os_replace_Return in Hmove as (_ & n & _ & Hfs).
  fold final_path in Hfs. split; [reflexivity|]. split.
  - rewrite Hfs, lookup_insert_eq. eauto.
  - intros b Hb. rewrite GET_file_unfold, Hb. reflexivity.
Qed.

Lemma finished_request_can_be_fetched_witness :
  GET_process demo.env demo.url_ok "song1" "vocals" demo.w0
  = (json_response 200 (file_body "/file?v=/srv/app/output/song1_sound.wav"),
     demo.w_final)
  ∧ status (json_response 200
              (file_body "/file?v=/srv/app/output/song1_sound.wav")) = 200
  ∧ fs demo.w_final !! "/srv/app/output/song1_sound.wav"
    = Some (File [Byte.x52; Byte.x49; Byte.x01])
  ∧ GET_file demo.env "/srv/app/output/song1_sound.wav" demo.w_final
    = ({| status := 200; content_type := "audio/wav";
          payload := BodyBytes [Byte.x52; Byte.x49; Byte.x01] |}, demo.w_final).
Proof.
  assert (H1 : GET_process demo.env demo.url_ok "song1" "vocals" demo.w0
               = (json_response 200
                    (file_body "/file?v=/srv/app/output/song1_sound.wav"),
                  demo.w_final)) by (vm_compute; reflexivity).
  assert (H2 : status (json_response 200
                         (file_body "/file?v=/srv/app/output/song1_sound.wav"))
               = 200) by reflexivity.
  assert (H3 : fs demo.w_final !! "/srv/app/output/song1_sound.wav"
               = Some (File [Byte.x52; Byte.x49; Byte.x01]))
    by (vm_compute; reflexivity).
  split; [exact H1|]. split; [exact H2|]. split; [exact H3|].
  exact (proj2 (proj2 (finished_request_can_be_fetched demo.env demo.url_ok
                         "song1" "vocals" demo.w0 _ _ H1 H2)) _ H3).
Defined.

(** X11. A filter run that leaves no file is not noticed by the trimmer but
    by the move that follows: when [keep_only_sound] has returned a path at
    which nothing exists, [os.replace] raises [FileNotFoundError] and the
    processing endpoint answers 500 with its message, which shows the
    [repr] of the two paths. *)
Theorem missing_trimmed_file_is_500
    env youtube_url file_name file_type (w : World)
    file_path w1 out_dir w2 sound_file w3 :
  let selected_file :=
    if String.eqb file_type "vocals" then os_path_join out_dir "vocals.wav"
    else os_path_join out_dir "accompaniment.wav" in
  let final_path :=
    pathlib.str (OUTPUT_DIR env
                 // (pathlib.stem (pathlib.Path file_name) +:+ "_sound.wav")) in
  file_type ∈ accepted_file_types →
  download_audio env youtube_url file_name w = (Return file_path, w1) →
  separate_audio env file_path w1 = (Return out_dir, w2) →
  keep_only_sound env selected_file w2 = (Return sound_file, w3) →
  fs w3 !! sound_file = None →
  GET_process env youtube_url file_name file_type w
  = (json_response 500
       (error_body ("[Errno 2] No such file or directory: "
                    +:+ pystr.repr sound_file
                    +:+ " -> " +:+ pystr.repr final_path)), w3).
Proof.
  intros selected_file final_path Hty Hdl Hsep Htrim Hnone.
  unfold GET_process, serve. rewrite process_audio_accepted by assumption.
  unfold try_except, pipeline, bind. rewrite Hdl, Hsep.
  fold selected_file. rewrite Htrim. fold final_path.
  unfold os_replace. rewrite Hnone. reflexivity.
Qed.

Lemma missing_trimmed_file_is_500_witness :
  let env := demo_filter.env_failing in
  let w1 := (download_audio env demo.url_ok "it's" demo.w0).2 in
  let w2 := (separate_audio env "/srv/app/Downloads/it's.mp3" w1).2 in
  let w3 := (keep_only_sound env "/srv/app/output/it's/vocals.wav" w2).2 in
  let sound_file := "/srv/app/output/it's/vocals_sound.wav" in
  let q := String pystr.dquote "" in
  "vocals" ∈ accepted_file_types
  ∧ download_audio env demo.url_ok "it's" demo.w0
    = (Return "/srv/app/Downloads/it's.mp3", w1)
  ∧ separate_audio env "/srv/app/Downloads/it's.mp3" w1
    = (Return "/srv/app/output/it's", w2)
  ∧ keep_only_sound env "/srv/app/output/it's/vocals.wav" w2
    = (Return sound_file, w3)
  ∧ fs w3 !! sound_file = None
  ∧ GET_process env demo.url_ok "it's" "vocals" demo.w0
    = (json_response 500
         (error_body
            ("[Errno 2] No such file or directory: "
             +:+ q +:+ "/srv/app/output/it's/vocals_sound.wav" +:+ q
             +:+ " -> " +:+ q +:+ "/srv/app/output/it's_sound.wav" +:+ q)),
       w3).
Proof.
  intros env w1 w2 w3 sound_file q.
  assert (H1 : "vocals" ∈ accepted_file_types)
    by (apply (bool_decide_unpack _); vm_compute; exact I).
  assert (H2 : download_audio env demo.url_ok "it's" demo.w0
               = (Return "/srv/app/Downloads/it's.mp3", w1))
    by (vm_compute; reflexivity).
  assert (H3 : separate_audio env "/srv/app/Downloads/it's.mp3" w1
               = (Return "/srv/app/output/it's", w2)) by (vm_compute; reflexivity).
  assert (H4 : keep_only_sound env "/srv/app/output/it's/vocals.wav" w2
               = (Return sound_file, w3)) by (vm_compute; reflexivity).
  assert (H5 : fs w3 !! sound_file = None) by (vm_compute; reflexivity).
  repeat (split; [assumption|]).
  exact (missing_trimmed_file_is_500 env demo.url_ok "it's" "vocals" demo.w0
           _ _ _ _ _ _ H1 H2 H3 H4 H5).
Defined.

(** X12. [process_audio] lets no exception out: whatever the tools and the
    file system do, it returns a response, which is JSON with status 200,
    400 or 500. *)
Theorem process_audio_never_raises env youtube_url file_name file_type (w : World) :
  ∃ v w',
    process_audio env youtube_url file_name file_type w = (Return v, w')
    ∧ content_type (fastapi_send (Return v) (fs w')) = "application/json"
    ∧ status (fastapi_send (Return v) (fs w')) ∈ [200; 400; 500].
Proof.
  destruct (decide (file_type ∈ accepted_file_types)) as [Hty|Hty].
  - rewrite process_audio_accepted by assumption. unfold try_except.
    destruct (pipeline _ _ _ _ _) as [[v|[sc d|e]] w1] eqn:E.
    + pose proof E as E'. apply pipeline_outcome in E' as [ref ->].
      eexists _, _. split; [reflexivity|]. split; [reflexivity|]. (apply list_elem_of_In; simpl; auto).
    + apply pipeline_outcome in E.
      eexists _, _. split; [reflexivity|]. split; [reflexivity|].
      simpl. destruct E as [-> | ->]; (apply list_elem_of_In; simpl; auto).
    + eexists _, _. split; [reflexivity|]. split; [reflexivity|]. (apply list_elem_of_In; simpl; auto).
  - rewrite process_audio_rejected by assumption.
    eexists _, _. split; [reflexivity|]. split; [reflexivity|]. (apply list_elem_of_In; simpl; auto).
Qed.

(** ** The order of the stages *)

Section stage_events.
Context (env : Env).

Lemma download_audio_events youtube_url file_name (w : World) r w1 :
  download_audio env youtube_url file_name w = (r, w1) →
  ∃ opts evs,
    trace w1 = trace w ++ evs
    ∧ evs `prefix_of` [Enter_download_audio youtube_url file_name;
                       Call_ydl opts youtube_url]
    ∧ ∀ file_path, r = Return file_path →
        evs = [Enter_download_audio youtube_url file_name;
               Call_ydl opts youtube_url].
Proof.
  rewrite download_audio_unfold. cbv zeta.
  destruct (pathlib.with_suffix _ _) as [template|e].
  - destruct (ydl_download _ _ _ _) as [[e|[]] files']; intros [= <- <-];
      eexists _, _; (split; [reflexivity|]); split; try reflexivity; auto.
  - intros [= <- <-]. exists (ydl_opts ""), [Enter_download_audio youtube_url file_name].
    split; [reflexivity|]. split; [eexists; reflexivity|discriminate].
Qed.

Lemma separate_audio_events file_path (w1 : World) r w2 :
  separate_audio env file_path w1 = (r, w2) →
  ∃ evs,
    trace w2 = trace w1 ++ evs
    ∧ evs `prefix_of` [Enter_separate_audio file_path;
                       Call_spleeter "spleeter:2stems" file_path
                         (pathlib.str (OUTPUT_DIR env))]
    ∧ ∀ out_dir, r = Return out_dir →
        evs = [Enter_separate_audio file_path;
               Call_spleeter "spleeter:2stems" file_path
                 (pathlib.str (OUTPUT_DIR env))].
Proof.
  rewrite separate_audio_unfold. cbv zeta.
  destruct (Path_mkdir _ _ _ _) as [[[]|e] w'] eqn:Em;
    apply Path_mkdir_trace in Em; simpl in Em.
  - destruct (spleeter_separate _ _ _ _ _) as [[e|[]] files']; intros [= <- <-];
      eexists; (split; [simpl; rewrite Em, <- app_assoc; reflexivity|]);
      split; try reflexivity; auto.
  - intros [= <- <-]. eexists. split; [exact Em|].
    split; [eexists; reflexivity|discriminate].
Qed.

Lemma keep_only_sound_events input_file (w2 : World) r w3 :
  keep_only_sound env input_file w2 = (r, w3) →
  ∃ sound_file evs,
    trace w3 = trace w2 ++ evs
    ∧ evs `prefix_of` [Enter_keep_only_sound input_file;
                       Call_subprocess (ffmpeg_cmd input_file sound_file)]
    ∧ ∀ sf, r = Return sf →
        evs = [Enter_keep_only_sound input_file;
               Call_subprocess (ffmpeg_cmd input_file sound_file)].
Proof.
  rewrite keep_only_sound_unfold. cbv zeta.
  destruct (pathlib.with_name _ _) as [output_file|e].
  - destruct (subprocess_run _ _ _) as [[e|rc] files']; intros [= <- <-];
      eexists _, _; (split; [reflexivity|]); split; try reflexivity; auto.
  - intros [= <- <-]. exists "", [Enter_keep_only_sound input_file].
    split; [reflexivity|]. split; [eexists; reflexivity|discriminate].
Qed.

Lemma os_replace_trace src dst (w3 : World) r w4 :
  os_replace src dst w3 = (r, w4) → trace w4 = trace w3.
Proof.
  unfold os_replace.
  destruct (fs w3 !! src) as [[b| |]|]; destruct (fs w3 !! dst) as [[b'| |]|];
    intros [= <- <-]; reflexivity.
Qed.

Lemma on_exception_world e (w : World) : (on_exception e w).2 = w.
Proof. destruct e; reflexivity. Qed.

End stage_events.

Lemma prefix_of_two {A} (evs : list A) a b rest :
  evs `prefix_of` [a; b] → evs `prefix_of` a :: b :: rest.
Proof. intros [k Hk]. exists (k ++ rest). rewrite app_assoc, <- Hk. reflexivity. Qed.

(** X13. In every request the stages run in the order of the pipeline and
    each at most once: what a request adds to the trace is a prefix of
    entering [download_audio], calling the downloader, entering
    [separate_audio], calling the separator, entering [keep_only_sound] and
    running ffmpeg. *)
Theorem stages_run_in_order env youtube_url file_name file_type (w : World) :
  ∃ opts file_path selected_file sound_file evs,
    trace (GET_process env youtube_url file_name file_type w).2 = trace w ++ evs
    ∧ evs `prefix_of`
        full_run env youtube_url file_name opts file_path selected_file sound_file.
Proof.
  unfold GET_process, serve.
  destruct (decide (file_type ∈ accepted_file_types)) as [Hty|Hty].
  2:{ rewrite process_audio_rejected by assumption.
      exists (ydl_opts ""), "", "", "", []. split; [symmetry; apply app_nil_r|].
      apply prefix_nil. }
  rewrite process_audio_accepted by assumption.
  assert (E : (let '(r, w') := try_except
                 (pipeline env youtube_url file_name file_type) on_exception w in
               (fastapi_send r (fs w'), w')).2
              = (pipeline env youtube_url file_name file_type w).2).
  { unfold try_except. destruct (pipeline _ _ _ _ _) as [[v|e] w1]; simpl;
      [reflexivity|]. pose proof (on_exception_world e w1) as H.
      destruct (on_exception e w1). exact H. }
  rewrite E. clear E. unfold pipeline, bind.
  destruct (download_audio _ _ _ _) as [[file_path|e] w1] eqn:E1;
    apply download_audio_events in E1 as (opts & evs1 & Ht1 & Hp1 & Hf1).
  2:{ exists opts, "", "", "", evs1. split; [exact Ht1|].
      apply prefix_of_two, Hp1. }
  specialize (Hf1 _ eq_refl). subst evs1.
  destruct (separate_audio _ _ _) as [[out_dir|e] w2] eqn:E2;
    apply separate_audio_events in E2 as (evs2 & Ht2 & Hp2 & Hf2).
  2:{ exists opts, file_path, "", "",
        ([Enter_download_audio youtube_url file_name; Call_ydl opts youtube_url]
         ++ evs2).
      split; [simpl; rewrite Ht2, Ht1, <- app_assoc; reflexivity|].
      apply (prefix_app [_; _]), prefix_of_two, Hp2. }
  specialize (Hf2 _ eq_refl). subst evs2.
  destruct (keep_only_sound _ _ _) as [[sound_file|e] w3] eqn:E3;
    apply keep_only_sound_events in E3 as (sf & evs3 & Ht3 & Hp3 & Hf3).
  2:{ eexists opts, file_path, _, sf,
        ([Enter_download_audio youtube_url file_name; Call_ydl opts youtube_url]
         ++ [Enter_separate_audio file_path;
             Call_spleeter "spleeter:2stems" file_path
               (pathlib.str (OUTPUT_DIR env))] ++ evs3).
      split; [simpl; rewrite Ht3, Ht2, Ht1, <- !app_assoc; reflexivity|].
      apply (prefix_app [_; _]), (prefix_app [_; _]), Hp3. }
  specialize (Hf3 _ eq_refl). subst evs3.
  set (selected_file := if String.eqb file_type "vocals" then _ else _) in *.
  destruct (os_replace _ _ _) as [[[]|e] w4] eqn:E4;
    apply os_replace_trace in E4;
    exists opts, file_path, selected_file, sf,
      (full_run env youtube_url file_name opts file_path selected_file sf);
    (split; [simpl; rewrite E4, Ht3, Ht2, Ht1, <- !app_assoc; reflexivity|]);
    reflexivity.
Qed.

(** X14. A 400 from the processing endpoint means that the request stopped
    at the validation or in the fetcher: neither the separator nor the
    trimmer was invoked. *)
Theorem status_400_stops_before_separation
    env youtube_url file_name file_type (w : World) resp w' :
  GET_process env youtube_url file_name file_type w = (resp, w') →
  status resp = 400 →
  never_invoked is_separator_event w w' ∧ never_invoked is_trimmer_event w w'.
Proof.
  unfold GET_process, serve.
  destruct (decide (file_type ∈ accepted_file_types)) as [Hty|Hty].
  2:{ rewrite process_audio_rejected by assumption. intros [= <- <-] _.
      split; apply never_invoked_same; reflexivity. }
  rewrite process_audio_accepted by assumption. unfold try_except.
  destruct (pipeline _ _ _ _ _) as [[v|[sc d|e]] w1] eqn:E.
  - apply pipeline_outcome in E as [ref ->]. intros [= <- <-]. simpl. lia.
  - simpl. intros [= <- <-]. simpl. intros ->.
    unfold pipeline, bind in E.
    destruct (download_audio _ _ _ _) as [[file_path|e] w2] eqn:E1.
    + destruct (separate_audio _ _ _) as [[out_dir|e] w3] eqn:E2.
      * destruct (keep_only_sound _ _ _) as [[sound_file|e] w4] eqn:E3.
        -- destruct (os_replace _ _ _) as [[[]|e] w5] eqn:E4; [discriminate|].
           apply os_replace_Raise in E4 as [e' ->]. discriminate.
        -- apply keep_only_sound_Raise in E3 as [e' ->]. discriminate.
      * injection E as -> ->. apply separate_audio_Raise in E2 as [_ [H _]].
        lia.
    + injection E as -> ->. apply download_audio_Raise in E1 as (H1 & H2 & _).
      split; assumption.
  - simpl. intros [= <- <-]. simpl. lia.
Qed.

Lemma status_400_stops_before_separation_witness :
  let run := GET_process demo.env demo.url_unreachable "song1" "vocals" demo.w0 in
  run = (run.1, run.2)
  ∧ status run.1 = 400
  ∧ never_invoked is_separator_event demo.w0 run.2
  ∧ never_invoked is_trimmer_event demo.w0 run.2.
Proof.
  intros run.
  assert (H1 : run = (run.1, run.2)) by apply surjective_pairing.
  assert (H2 : status run.1 = 400) by (vm_compute; reflexivity).
  split; [exact H1|]. split; [exact H2|].
  exact (status_400_stops_before_separation demo.env demo.url_unreachable "song1"
           "vocals" demo.w0 _ _ H1 H2).
Defined.

(** X15. The file endpoint reads and never writes: it leaves the world as
    it was, and its status tells what is at the reference: 404 exactly when
    nothing exists there, 200 exactly when a regular file does, 500 exactly
    when something that is no regular file does (a directory, a device). *)
Theorem file_endpoint_statuses env v (w : World) :
  let resp := (GET_file env v w).1 in
  (GET_file env v w).2 = w
  ∧ (status resp = 404 ↔ fs w !! v = None)
  ∧ (status resp = 200 ↔ ∃ b, fs w !! v = Some (File b))
  ∧ (status resp = 500 ↔ ∃ n, fs w !! v = Some n ∧ ∀ b, n ≠ File b).
Proof.
  rewrite GET_file_unfold. cbn [fst snd].
  destruct (fs w !! v) as [[b| |]|]; simpl; repeat split; intros;
    repeat match goal with
           | H : ∃ _, _ |- _ => destruct H
           | H : _ ∧ _ |- _ => destruct H
           | H : Some _ = Some _ |- _ => injection H as H; subst
           end;
    try reflexivity; try lia; try discriminate;
    try (eexists; split; [reflexivity|discriminate]);
    try (exfalso; eauto; fail); eauto;
    match goal with H : ∀ b0, File _ ≠ File b0 |- _ => destruct (H _ eq_refl) end.
Qed.

(** ** A filter that cannot be started *)

(** The stem that is selected has a name, whatever the request. *)
Lemma selected_file_has_name
    env youtube_url file_name file_type (w : World) file_path w1 out_dir w2 :
  normal (BASE_DIR env) →
  download_audio env youtube_url file_name w = (Return file_path, w1) →
  separate_audio env file_path w1 = (Return out_dir, w2) →
  pathlib.name (pathlib.Path
                  (if String.eqb file_type "vocals"
                   then os_path_join out_dir "vocals.wav"
                   else os_path_join out_dir "accompaniment.wav")) ≠ "".
Proof.
  intros Hbase Hdl Hsep.
  pose proof (download_audio_Return_name _ _ _ _ _ _ Hdl) as Hname.
  apply download_audio_Return in Hdl as [-> _].
  apply separate_audio_Return in Hsep as [-> _].
  destruct (song_directory env file_name Hbase Hname) as (Eq & Hq & Hstr).
  rewrite Eq. set (q := {| pathlib.root := _; pathlib.tail := _ |}) in *.
  assert (Ht : pathlib.tail q ≠ [])
    by (unfold q; cbn [pathlib.tail]; intros [_ E]%app_nil; discriminate).
  assert (Hv : "vocals" ≠ "") by discriminate.
  assert (Ha : "accompaniment" ≠ "") by discriminate.
  pose proof (stem_file_in_dir q "vocals" Hq Ht Hv eq_refl) as [Hv1 _].
  pose proof (stem_file_in_dir q "accompaniment" Hq Ht Ha eq_refl) as [Ha1 _].
  destruct (String.eqb file_type "vocals").
  - change (os_path_join (pathlib.str q) "vocals.wav")
      with (os_path_join (pathlib.str q) ("vocals" +:+ ".wav")).
    rewrite Hv1, (stem_file_name q "vocals" Hq Ht Hv eq_refl). discriminate.
  - change (os_path_join (pathlib.str q) "accompaniment.wav")
      with (os_path_join (pathlib.str q) ("accompaniment" +:+ ".wav")).
    rewrite Ha1, (stem_file_name q "accompaniment" Hq Ht Ha eq_refl). discriminate.
Qed.

(** X16. The trimmer swallows a return code, not a failed launch: when
    ffmpeg cannot be started, the exception of [subprocess.run] leaves
    [keep_only_sound] and the processing endpoint answers 500 with its
    message (the script living at a path in normal form). *)
Theorem failed_launch_is_500
    env youtube_url file_name file_type (w : World)
    file_path w1 out_dir w2 e files' :
  let selected_file :=
    if String.eqb file_type "vocals" then os_path_join out_dir "vocals.wav"
    else os_path_join out_dir "accompaniment.wav" in
  normal (BASE_DIR env) →
  file_type ∈ accepted_file_types →
  download_audio env youtube_url file_name w = (Return file_path, w1) →
  separate_audio env file_path w1 = (Return out_dir, w2) →
  subprocess_run env
    (ffmpeg_cmd selected_file (pathlib.str (sound_path selected_file))) (fs w2)
    = (inl e, files') →
  ∃ w3,
    keep_only_sound env selected_file w2 = (Raise (OtherException e), w3)
    ∧ GET_process env youtube_url file_name file_type w
      = (json_response 500 (error_body (exc_str e)), w3).
Proof.
  intros selected_file Hbase Hty Hdl Hsep Hrun.
  pose proof (selected_file_has_name env youtube_url file_name file_type w
                _ _ _ _ Hbase Hdl Hsep) as Hname.
  fold selected_file in Hname.
  assert (Hk : keep_only_sound env selected_file w2
               = (Raise (OtherException e),
                  {| fs := files';
                     trace := trace w2 ++
                       [Enter_keep_only_sound selected_file;
                        Call_subprocess
                          (ffmpeg_cmd selected_file
                             (pathlib.str (sound_path selected_file)))] |})).
  { rewrite keep_only_sound_unfold, with_name_sound by exact Hname.
    cbv zeta. rewrite Hrun. reflexivity. }
  eexists. split; [exact Hk|].
  unfold GET_process, serve. rewrite process_audio_accepted by assumption.
  unfold try_except, pipeline, bind. rewrite Hdl, Hsep.
  fold selected_file. rewrite Hk. reflexivity.
Qed.

Lemma failed_launch_is_500_witness :
  let env := demo_filter.env_missing in
  let w1 := (download_audio env demo.url_ok "song1" demo.w0).2 in
  let w2 := (separate_audio env "/srv/app/Downloads/song1.mp3" w1).2 in
  let e := mkPyError "FileNotFoundError"
             "[Errno 2] No such file or directory: 'ffmpeg'" in
  normal (BASE_DIR env)
  ∧ "music" ∈ accepted_file_types
  ∧ download_audio env demo.url_ok "song1" demo.w0
    = (Return "/srv/app/Downloads/song1.mp3", w1)
  ∧ separate_audio env "/srv/app/Downloads/song1.mp3" w1
    = (Return "/srv/app/output/song1", w2)
  ∧ subprocess_run env
      (ffmpeg_cmd "/srv/app/output/song1/accompaniment.wav"
         "/srv/app/output/song1/accompaniment_sound.wav") (fs w2)
    = (inl e, fs w2)
  ∧ ∃ w3,
      GET_process env demo.url_ok "song1" "music" demo.w0
      = (json_response 500
           (error_body "[Errno 2] No such file or directory: 'ffmpeg'"), w3).
Proof.
  intros env w1 w2 e.
  assert (H0 : normal (BASE_DIR env)) by apply Path_normal.
  assert (H1 : "music" ∈ accepted_file_types)
    by (apply (bool_decide_unpack _); vm_compute; exact I).
  assert (H2 : download_audio env demo.url_ok "song1" demo.w0
               = (Return "/srv/app/Downloads/song1.mp3", w1))
    by (vm_compute; reflexivity).
  assert (H3 : separate_audio env "/srv/app/Downloads/song1.mp3" w1
               = (Return "/srv/app/output/song1", w2)) by (vm_compute; reflexivity).
  assert (H4 : subprocess_run env
                 (ffmpeg_cmd "/srv/app/output/song1/accompaniment.wav"
                    "/srv/app/output/song1/accompaniment_sound.wav") (fs w2)
               = (inl e, fs w2)) by reflexivity.
  repeat (split; [assumption|]).
  destruct (failed_launch_is_500 env demo.url_ok "song1" "music" demo.w0
              _ _ _ _ e (fs w2) H0 H1 H2 H3 H4) as (w3 & _ & Hget).
  exists w3. exact Hget.
Defined.
